(** * StockScorer: the scoring engine of the US stock screener

    A shallow embedding of [src/stock_screener.py], class [StockScorer]:
    [score_financial_metrics], [score_competitive_moat],
    [calculate_risk_deductions] and [score_stock].

    Numbers are exact: a Python [int] is a [Z] and a finite [float] is
    the rational it denotes.  The float literals of the source stand for
    the doubles they denote: [0.5], [1e9], [50e9] and the like are exact,
    and [0.05], [0.10], [0.15] and [0.40] are the rationals [float_0_05]
    to [float_0_40], so that a comparison with a literal is the comparison
    the code makes.  A field value written in decimal in a scenario lies
    on the same side of every threshold as the double it denotes.
    Rounding of the results of float arithmetic is not modelled; what is
    modelled of floats is what drives control flow: truthiness, ordering,
    [inf]/[nan], and the [OverflowError] of an [int] too large for a
    [float]. *)

From Stdlib Require Import ZArith QArith Qabs String Ascii Bool Lqa Lia.
From stdpp Require Import base option list gmap strings sorting.

Local Open Scope string_scope.

(** ** Python values and the operations the scorers use on them *)

Module Py.

(** A [float]: finite, infinite or not-a-number. *)
Inductive pyfloat : Type :=
  | Fin (q : Q)
  | Inf (negative : bool)
  | NaN.

(** The values a field of the provider's [info] dict holds. *)
Inductive pyval : Type :=
  | PNone
  | PBool (b : bool)
  | PInt (n : Z)
  | PFloat (f : pyfloat)
  | PStr (s : string).

(** The exceptions the scorer bodies can raise, and the failure of the
    data provider; all derive from [Exception]. *)
Inductive exn : Type :=
  | TypeError
  | ValueError
  | OverflowError
  | ZeroDivisionError
  | AttributeError
  | ProviderError (msg : string).

(** An expression either yields a value or raises. *)
Inductive result (A : Type) : Type :=
  | Ok (a : A)
  | Raise (e : exn).
Arguments Ok {A} a.
Arguments Raise {A} e.

Definition Qltb (a b : Q) : bool := negb (Qle_bool b a).

(** The float literals of the source that binary floating point does
    not hold exactly.  Each denotes the double nearest to it; these are
    the values of those doubles. *)
Definition float_0_05 : Q := 3602879701896397 # 72057594037927936.
Definition float_0_10 : Q := 3602879701896397 # 36028797018963968.
Definition float_0_15 : Q := 5404319552844595 # 36028797018963968.
Definition float_0_40 : Q := 3602879701896397 # 9007199254740992.

(** [bool(v)]. *)
Definition truthy (v : pyval) : bool :=
  match v with
  | PNone => false
  | PBool b => b
  | PInt n => negb (n =? 0)%Z
  | PFloat (Fin q) => negb (Qeq_bool q 0)
  | PFloat _ => true
  | PStr s => negb (String.eqb s "")
  end.

(** The number a value stands for in arithmetic and ordering; [bool] is a
    subclass of [int]. *)
Definition as_number (v : pyval) : option pyfloat :=
  match v with
  | PBool b => Some (Fin (if b then 1 else 0))
  | PInt n => Some (Fin (inject_Z n))
  | PFloat f => Some f
  | PNone | PStr _ => None
  end.

(** [v > c], [v < c], [v >= c], [v <= c] against a numeric literal [c]:
    ordering a [str] or [None] with a number is a [TypeError]; every
    ordering with [nan] is false. *)
Definition gt_lit (v : pyval) (c : Q) : result bool :=
  match as_number v with
  | Some (Fin q) => Ok (Qltb c q)
  | Some (Inf negative) => Ok (negb negative)
  | Some NaN => Ok false
  | None => Raise TypeError
  end.

Definition lt_lit (v : pyval) (c : Q) : result bool :=
  match as_number v with
  | Some (Fin q) => Ok (Qltb q c)
  | Some (Inf negative) => Ok negative
  | Some NaN => Ok false
  | None => Raise TypeError
  end.

Definition ge_lit (v : pyval) (c : Q) : result bool :=
  match as_number v with
  | Some (Fin q) => Ok (Qle_bool c q)
  | Some (Inf negative) => Ok (negb negative)
  | Some NaN => Ok false
  | None => Raise TypeError
  end.

Definition le_lit (v : pyval) (c : Q) : result bool :=
  match as_number v with
  | Some (Fin q) => Ok (Qle_bool q c)
  | Some (Inf negative) => Ok negative
  | Some NaN => Ok false
  | None => Raise TypeError
  end.

(** [v != 0]: never raises. *)
Definition ne_zero (v : pyval) : bool :=
  match as_number v with
  | Some (Fin q) => negb (Qeq_bool q 0)
  | Some _ => true
  | None => true
  end.

(** An [int] converts to [float] (round to nearest even) unless the
    result would exceed the largest double, [2^1024 - 2^971]: from
    [2^1024 - 2^970] on the conversion raises [OverflowError]. *)
Definition float_overflow : Z := (2 ^ 1024 - 2 ^ 970)%Z.

Definition fits_float (q : Q) : bool := Qltb (Qabs q) (inject_Z float_overflow).

Definition float_of_int (n : Z) : result pyfloat :=
  if fits_float (inject_Z n) then Ok (Fin (inject_Z n)) else Raise OverflowError.

(** [format(v, '.1f')] and [format(v, '.2f')]: only whether it raises
    matters here; the text itself is kept symbolic (see [detail]). *)
Definition format_f (v : pyval) : result unit :=
  match v with
  | PNone => Raise TypeError
  | PStr _ => Raise ValueError
  | PBool _ => Ok tt
  | PInt n => match float_of_int n with Ok _ => Ok tt | Raise e => Raise e end
  | PFloat _ => Ok tt
  end.

Fixpoint str_repeat (s : string) (k : nat) : string :=
  match k with
  | O => ""
  | S k' => s ++ str_repeat s k'
  end.

Definition fmul (f : pyfloat) (k : Z) : pyfloat :=
  match f with
  | Fin q => Fin (q * inject_Z k)
  | other => other
  end.

(** [v * k] for a positive [int] literal [k]. *)
Definition mul_lit (v : pyval) (k : Z) : result pyval :=
  match v with
  | PNone => Raise TypeError
  | PBool b => Ok (PInt ((if b then 1 else 0) * k))
  | PInt n => Ok (PInt (n * k))
  | PFloat f => Ok (PFloat (fmul f k))
  | PStr s => Ok (PStr (str_repeat s (Z.to_nat k)))
  end.

Definition xor_sign (a b : bool) : bool := xorb a b.

(** Float division [a / b]. *)
Definition fdiv (a b : pyfloat) : result pyfloat :=
  match a, b with
  | _, Fin q =>
      if Qeq_bool q 0 then Raise ZeroDivisionError
      else match a with
           | Fin p => Ok (Fin (p / q))
           | Inf s => Ok (Inf (xor_sign s (Qltb q 0)))
           | NaN => Ok NaN
           end
  | NaN, _ => Ok NaN
  | _, NaN => Ok NaN
  | Inf _, Inf _ => Ok NaN
  | Fin _, Inf _ => Ok (Fin 0)
  end.

Definition to_float (v : pyval) : result pyfloat :=
  match v with
  | PBool b => Ok (Fin (if b then 1 else 0))
  | PInt n => float_of_int n
  | PFloat f => Ok f
  | PNone | PStr _ => Raise TypeError
  end.

Definition as_int (v : pyval) : option Z :=
  match v with
  | PBool b => Some (if b then 1 else 0)%Z
  | PInt n => Some n
  | _ => None
  end.

(** True division [a / b]: a [TypeError] unless both operands are
    numbers.  [int / int] is computed exactly and raises [OverflowError]
    only when the quotient is too large; with a [float] operand the
    [int] is converted first. *)
Definition truediv (a b : pyval) : result pyval :=
  match as_number a, as_number b with
  | Some _, Some _ =>
      match as_int a, as_int b with
      | Some n, Some d =>
          if (d =? 0)%Z then Raise ZeroDivisionError
          else if fits_float (inject_Z n / inject_Z d)
               then Ok (PFloat (Fin (inject_Z n / inject_Z d)))
               else Raise OverflowError
      | _, _ =>
          match to_float a with
          | Raise e => Raise e
          | Ok x =>
              match to_float b with
              | Raise e => Raise e
              | Ok y =>
                  match fdiv x y with
                  | Ok r => Ok (PFloat r)
                  | Raise e => Raise e
                  end
              end
          end
      end
  | _, _ => Raise TypeError
  end.

(** [abs(v)] of a number. *)
Definition py_abs (v : pyval) : result pyval :=
  match v with
  | PBool b => Ok (PInt (if b then 1 else 0))
  | PInt n => Ok (PInt (Z.abs n))
  | PFloat (Fin q) => Ok (PFloat (Fin (Qabs q)))
  | PFloat (Inf _) => Ok (PFloat (Inf false))
  | PFloat NaN => Ok (PFloat NaN)
  | PNone | PStr _ => Raise TypeError
  end.

(** [needle in hay] for two [str]: substring search.  Text is UTF-8
    encoded; a substring of code points is a substring of bytes and, for
    well-formed text, conversely. *)
Fixpoint str_contains (hay needle : string) : bool :=
  String.prefix needle hay
  || match hay with
     | EmptyString => false
     | String _ rest => str_contains rest needle
     end.

(** [needle in v]: a [TypeError] when [v] is not a container. *)
Definition contains (v : pyval) (needle : string) : result bool :=
  match v with
  | PStr s => Ok (str_contains s needle)
  | _ => Raise TypeError
  end.

(** [any(x in v for x in needles)]: stops at the first match and
    propagates the first exception. *)
Fixpoint any_in (needles : list string) (v : pyval) : result bool :=
  match needles with
  | [] => Ok false
  | x :: rest =>
      match contains v x with
      | Raise e => Raise e
      | Ok true => Ok true
      | Ok false => any_in rest v
      end
  end.

(** [v in names] for a list of [str] literals: element-wise [==], which
    never raises and is false between a [str] and any other scalar. *)
Definition in_names (v : pyval) (names : list string) : bool :=
  match v with
  | PStr s => existsb (String.eqb s) names
  | _ => false
  end.

Definition lower_ascii (c : ascii) : ascii :=
  let n := nat_of_ascii c in
  if (65 <=? n)%nat && (n <=? 90)%nat then ascii_of_nat (n + 32) else c.

Definition byte_is (c : ascii) (n : nat) : bool := (nat_of_ascii c =? n)%nat.

(** [s.lower()] on UTF-8 text.  The letters [A]-[Z] are lowered; of the
    other code points the two whose lower case holds an ASCII character
    are lowered too, the Kelvin sign U+212A to [k] and the dotted capital
    I U+0130 to [i] and a combining dot.  Other bytes are left as they
    are, so the ASCII characters of the result, and with them the ASCII
    substrings, are those of [s.lower()]. *)
Fixpoint lower (s : string) : string :=
  match s with
  | EmptyString => EmptyString
  | String c rest =>
      let plain := String (lower_ascii c) (lower rest) in
      match rest with
      | String c2 rest2 =>
          if byte_is c 196 && byte_is c2 176 then
            String "i" (String (ascii_of_nat 204) (String (ascii_of_nat 135)
              (lower rest2)))
          else
            match rest2 with
            | String c3 rest3 =>
                if byte_is c 226 && byte_is c2 132 && byte_is c3 170
                then String "k" (lower rest3)
                else plain
            | EmptyString => plain
            end
      | EmptyString => plain
      end
  end.

(** The longest [int] that [str] converts: 4300 digits. *)
Definition int_max_str_digits : Z := 4300.

(** ['buyback' in str(v).lower()].  [str] of [None], a [bool] or a number
    is made of the characters of [None], [True], [False], [inf], [nan],
    digits, [.], [e], [+] and [-], so only a [str] can mention it; [str]
    of an [int] of more than 4300 digits raises a [ValueError]. *)
Definition mentions_buyback (v : pyval) : result bool :=
  match v with
  | PStr s => Ok (str_contains (lower s) "buyback")
  | PInt n =>
      if (10 ^ int_max_str_digits <=? Z.abs n)%Z then Raise ValueError
      else Ok false
  | _ => Ok false
  end.

End Py.

Import Py.

(** ** The scorer state: the locals [score] and [details] *)

(** A rationale string, kept symbolic: the f-string of the source and
    the values it interpolates, or the text of a caught exception. *)
Inductive detail : Type :=
  | Rendered (template : string) (args : list pyval)
  | Message (e : exn).

Record state : Type := mkState {
  score : Q;
  details : gmap string detail
}.

(** [score = 0; details = {}] *)
Definition initial : state := mkState 0 ∅.

(** A block of statements runs on the locals and either completes or
    raises; the locals keep what was assigned before the exception. *)
Definition M (A : Type) : Type := state -> result A * state.

Definition ret {A} (a : A) : M A := fun st => (Ok a, st).

Definition bind {A B} (m : M A) (k : A -> M B) : M B :=
  fun st =>
    match m st with
    | (Ok a, st') => k a st'
    | (Raise e, st') => (Raise e, st')
    end.

Notation "x <- m ;; k" := (bind m (fun x => k))
  (at level 100, m at next level, right associativity).
Notation "m ;; k" := (bind m (fun _ => k))
  (at level 100, right associativity).

(** Evaluate an expression. *)
Definition eval {A} (r : result A) : M A := fun st => (r, st).

(** [score += q] *)
Definition add_score (q : Q) : M unit :=
  fun st => (Ok tt, mkState (score st + q) (details st)).

(** [details[key] = d] *)
Definition set_detail (key : string) (d : detail) : M unit :=
  fun st => (Ok tt, mkState (score st) (<[key := d]> (details st))).

Definition skip : M unit := ret tt.

(** [a and b], [a or b] in a condition, [b] evaluated only when needed. *)
Definition and_then (a : bool) (b : result bool) : result bool :=
  if a then b else Ok false.

Definition or_else (a : bool) (b : result bool) : result bool :=
  if a then Ok true else b.

(** An interpolation [{expr:.1f}] or [{expr:.2f}]: evaluate, format. *)
Definition interpolate (expr : result pyval) : M pyval :=
  v <- eval expr ;;
  eval (format_f v) ;;
  ret v.

(** [try: body / except Exception as e: details['Error'] = str(e)] and
    then [return score, details]. *)
Definition try_except (body : M unit) : Q * gmap string detail :=
  match body initial with
  | (Ok _, st) => (score st, details st)
  | (Raise e, st) => (score st, <["Error" := Message e]> (details st))
  end.

(** ** The provider's [info] dict *)

(** What is stored under the key ['financialData']: a nested dict, or a
    scalar (on which [.get] is an [AttributeError]). *)
Inductive financial_data : Type :=
  | FDict (d : gmap string pyval)
  | FScalar (v : pyval).

(** [stock_info]: the scalar fields, and the ['financialData'] entry when
    the key is there. *)
Record snapshot : Type := mkSnapshot {
  fields : gmap string pyval;
  financialData : option financial_data
}.

(** [stock_info.get(key, default)] *)
Definition get (stock_info : snapshot) (key : string) (default : pyval) : pyval :=
  match fields stock_info !! key with
  | Some v => v
  | None => default
  end.

(** [stock_info.get('financialData', {})] *)
Definition get_financials (stock_info : snapshot) : financial_data :=
  match financialData stock_info with
  | Some f => f
  | None => FDict ∅
  end.

(** [financials.get(key, default)] *)
Definition fget (financials : financial_data) (key : string) (default : pyval)
  : result pyval :=
  match financials with
  | FDict d => Ok (match d !! key with Some v => v | None => default end)
  | FScalar _ => Raise AttributeError
  end.

Local Open Scope Q_scope.

Module StockScorer.

(** [class StockScorer], with the attribute [__init__] sets. *)
Record t : Type := mk { min_passing_score : Q }.

Definition init : t := mk 7.

(** *** [score_financial_metrics], criterion by criterion *)

(** 1. EPS growth.  The f-string of the else branch formats
    [eps_growth*100] whatever [eps_growth] is. *)
Definition eps_growth_rule (financials : financial_data) : M unit :=
  eps_growth <- eval (fget financials "earningsGrowth" (PInt 0)) ;;
  c <- eval (and_then (truthy eps_growth) (gt_lit eps_growth float_0_05)) ;;
  if c then
    add_score 1 ;;
    x <- interpolate (mul_lit eps_growth 100) ;;
    set_detail "EPS Growth" (Rendered "✓ {eps_growth*100:.1f}%" [x])
  else
    x <- interpolate (mul_lit eps_growth 100) ;;
    set_detail "EPS Growth"
      (Rendered "✗ {eps_growth*100:.1f}% if eps_growth else '✗ N/A'" [x]).

(** 2. Dividend. *)
Definition dividend_rule (stock_info : snapshot) : M unit :=
  let dividend_rate := get stock_info "dividendRate" (PInt 0) in
  let five_year_avg_yield := get stock_info "fiveYearAvgDividendYield" (PInt 0) in
  c <- eval (and_then (truthy dividend_rate) (gt_lit dividend_rate 0)) ;;
  if c then
    c5 <- eval (and_then (truthy five_year_avg_yield) (gt_lit five_year_avg_yield 0)) ;;
    if c5 then
      add_score 1 ;;
      x <- interpolate (Ok dividend_rate) ;;
      y <- interpolate (Ok five_year_avg_yield) ;;
      set_detail "Dividend"
        (Rendered "✓ ${dividend_rate:.2f}, 5yr avg {five_year_avg_yield:.1f}%" [x; y])
    else
      add_score 0.5 ;;
      x <- interpolate (Ok dividend_rate) ;;
      set_detail "Dividend" (Rendered "⚠ ${dividend_rate:.2f}" [x])
  else
    set_detail "Dividend" (Rendered "✗ No dividend" []).

(** 3. Share count. *)
Definition share_count_rule (stock_info : snapshot) : M unit :=
  let shares_outstanding := get stock_info "sharesOutstanding" (PInt 0) in
  if truthy shares_outstanding then
    c <- eval (or_else (truthy (get stock_info "sharesShort" (PInt 0)))
                 (mentions_buyback
                    (get stock_info "longBusinessSummary" (PStr "")))) ;;
    if c then
      add_score 0.5 ;;
      set_detail "Shares" (Rendered "⚠ Unable to verify trend" [])
    else skip
  else skip.

(** 4. Book value. *)
Definition book_value_rule (stock_info : snapshot) : M unit :=
  let book_value := get stock_info "bookValue" (PInt 0) in
  c <- eval (and_then (truthy book_value) (gt_lit book_value 0)) ;;
  if c then
    add_score 0.5 ;;
    x <- interpolate (Ok book_value) ;;
    set_detail "Book Value" (Rendered "⚠ ${book_value:.2f}" [x])
  else skip.

(** 5. Free cash flow. *)
Definition free_cash_flow_rule (financials : financial_data) : M unit :=
  free_cash_flow <- eval (fget financials "freeCashflow" (PInt 0)) ;;
  c <- eval (and_then (truthy free_cash_flow) (gt_lit free_cash_flow 0)) ;;
  if c then
    add_score 1 ;;
    x <- interpolate (truediv free_cash_flow (PFloat (Fin 1e9))) ;;
    set_detail "FCF" (Rendered "✓ ${free_cash_flow/1e9:.2f}B" [x])
  else
    set_detail "FCF" (Rendered "✗ Negative or N/A" []).

(** 6. Net margin. *)
Definition net_margin_rule (financials : financial_data) : M unit :=
  profit_margin <- eval (fget financials "profitMargins" (PInt 0)) ;;
  if truthy profit_margin then
    c1 <- eval (gt_lit profit_margin float_0_10) ;;
    if c1 then
      add_score 1 ;;
      x <- interpolate (mul_lit profit_margin 100) ;;
      set_detail "Net Margin" (Rendered "✓ {profit_margin*100:.1f}%" [x])
    else
      c2 <- eval (gt_lit profit_margin float_0_05) ;;
      if c2 then
        add_score 0.5 ;;
        x <- interpolate (mul_lit profit_margin 100) ;;
        set_detail "Net Margin" (Rendered "⚠ {profit_margin*100:.1f}%" [x])
      else
        x <- interpolate (mul_lit profit_margin 100) ;;
        set_detail "Net Margin" (Rendered "✗ {profit_margin*100:.1f}%" [x])
  else skip.

(** [lo <= v <= hi] and [lo <= v < hi]: chained, the second comparison
    only when the first holds. *)
Definition between_le_le (lo : Q) (v : pyval) (hi : Q) : result bool :=
  match ge_lit v lo with
  | Ok true => le_lit v hi
  | other => other
  end.

Definition between_le_lt (lo : Q) (v : pyval) (hi : Q) : result bool :=
  match ge_lit v lo with
  | Ok true => lt_lit v hi
  | other => other
  end.

Definition between_lt_lt (lo : Q) (v : pyval) (hi : Q) : result bool :=
  match gt_lit v lo with
  | Ok true => lt_lit v hi
  | other => other
  end.

(** 7. Return on equity. *)
Definition roe_rule (financials : financial_data) : M unit :=
  roe <- eval (fget financials "returnOnEquity" (PInt 0)) ;;
  if truthy roe then
    c1 <- eval (between_le_le float_0_15 roe float_0_40) ;;
    if c1 then
      add_score 1 ;;
      x <- interpolate (mul_lit roe 100) ;;
      set_detail "ROE" (Rendered "✓ {roe*100:.1f}%" [x])
    else
      c2 <- eval (between_le_lt float_0_10 roe float_0_15) ;;
      if c2 then
        add_score 0.5 ;;
        x <- interpolate (mul_lit roe 100) ;;
        set_detail "ROE" (Rendered "⚠ {roe*100:.1f}%" [x])
      else
        x <- interpolate (mul_lit roe 100) ;;
        set_detail "ROE" (Rendered "✗ {roe*100:.1f}%" [x])
  else skip.

(** [abs(ebit / interest_expense) if ebit else 0] *)
Definition ic_ratio_of (ebit interest_expense : pyval) : result pyval :=
  if truthy ebit then
    match truediv ebit interest_expense with
    | Ok r => py_abs r
    | Raise e => Raise e
    end
  else Ok (PInt 0).

(** 8. Interest coverage. *)
Definition interest_coverage_rule (financials : financial_data) : M unit :=
  ebit <- eval (fget financials "ebit" (PInt 0)) ;;
  interest_expense <- eval (fget financials "interestExpense" (PInt 0)) ;;
  if truthy interest_expense && ne_zero interest_expense then
    ic_ratio <- eval (ic_ratio_of ebit interest_expense) ;;
    c1 <- eval (gt_lit ic_ratio 10) ;;
    if c1 then
      add_score 1 ;;
      x <- interpolate (Ok ic_ratio) ;;
      set_detail "Interest Coverage" (Rendered "✓ {ic_ratio:.1f}x" [x])
    else
      c2 <- eval (gt_lit ic_ratio 5) ;;
      if c2 then
        add_score 0.5 ;;
        x <- interpolate (Ok ic_ratio) ;;
        set_detail "Interest Coverage" (Rendered "⚠ {ic_ratio:.1f}x" [x])
      else
        x <- interpolate (Ok ic_ratio) ;;
        set_detail "Interest Coverage" (Rendered "✗ {ic_ratio:.1f}x" [x])
  else
    add_score 1 ;;
    set_detail "Interest Coverage" (Rendered "✓ No debt" []).

(** [v is not None] *)
Definition is_not_None (v : pyval) : bool :=
  match v with
  | PNone => false
  | _ => true
  end.

(** 9. Debt/Equity. *)
Definition debt_equity_rule (financials : financial_data) : M unit :=
  debt_to_equity <- eval (fget financials "debtToEquity" (PInt 0)) ;;
  if is_not_None debt_to_equity then
    c <- eval (lt_lit debt_to_equity 50) ;;
    if c then
      add_score 1 ;;
      x <- interpolate (truediv debt_to_equity (PInt 100)) ;;
      set_detail "D/E Ratio" (Rendered "✓ {debt_to_equity/100:.2f}" [x])
    else
      x <- interpolate (truediv debt_to_equity (PInt 100)) ;;
      set_detail "D/E Ratio" (Rendered "✗ {debt_to_equity/100:.2f}" [x])
  else skip.

(** The nine criteria in the order of the body.  [financials] is bound
    once at the top; [key_stats] and [historical_data] are never read. *)
Definition financial_criteria (stock_info : snapshot) : list (M unit) :=
  let financials := get_financials stock_info in
  [ eps_growth_rule financials;
    dividend_rule stock_info;
    share_count_rule stock_info;
    book_value_rule stock_info;
    free_cash_flow_rule financials;
    net_margin_rule financials;
    roe_rule financials;
    interest_coverage_rule financials;
    debt_equity_rule financials ].

(** Statements in sequence. *)
Fixpoint block (stmts : list (M unit)) : M unit :=
  match stmts with
  | [] => skip
  | s :: rest => s ;; block rest
  end.

Definition score_financial_metrics {H : Type}
    (self : t) (stock_info : snapshot) (historical_data : H)
  : Q * gmap string detail :=
  try_except (block (financial_criteria stock_info)).

(** *** [score_competitive_moat] *)

Definition consumer_sectors : list string :=
  ["Consumer Cyclical"; "Consumer Defensive"; "Communication Services"].

Definition patent_sectors : list string := ["Healthcare"; "Technology"].

Definition high_switching_industries : list string :=
  ["Software"; "Banks"; "Insurance"; "Utilities"].

Definition network_industries : list string :=
  ["Internet"; "Payment"; "Social Media"; "Marketplace"].

(** 1. Brand. *)
Definition brand_rule (stock_info : snapshot) : M unit :=
  let sector := get stock_info "sector" (PStr "") in
  let market_cap := get stock_info "marketCap" (PInt 0) in
  c <- eval (gt_lit market_cap 50e9) ;;
  if c then
    if in_names sector consumer_sectors then
      add_score 1 ;;
      set_detail "Brand" (Rendered "✓ Large consumer brand" [])
    else
      add_score 0.5 ;;
      set_detail "Brand" (Rendered "⚠ Large company" [])
  else skip.

(** 2. Patents/licenses. *)
Definition patents_rule (stock_info : snapshot) : M unit :=
  let sector := get stock_info "sector" (PStr "") in
  if in_names sector patent_sectors then
    add_score 1 ;;
    set_detail "Patents" (Rendered "✓ {sector} sector" [sector])
  else skip.

(** [profit_margin and profit_margin > 0.15 and market_cap > 10e9] *)
Definition cost_advantage_test (profit_margin market_cap : pyval) : result bool :=
  and_then (truthy profit_margin)
    match gt_lit profit_margin float_0_15 with
    | Ok true => gt_lit market_cap 10e9
    | other => other
    end.

(** 3. Cost advantage. *)
Definition cost_advantage_rule (stock_info : snapshot) : M unit :=
  let market_cap := get stock_info "marketCap" (PInt 0) in
  let profit_margin := get stock_info "profitMargins" (PInt 0) in
  c <- eval (cost_advantage_test profit_margin market_cap) ;;
  if c then
    add_score 1 ;;
    x <- interpolate (mul_lit profit_margin 100) ;;
    set_detail "Cost Advantage"
      (Rendered "✓ {profit_margin*100:.1f}% margin + scale" [x])
  else skip.

(** 4. Switching costs. *)
Definition switching_cost_rule (stock_info : snapshot) : M unit :=
  let industry := get stock_info "industry" (PStr "") in
  c <- eval (any_in high_switching_industries industry) ;;
  if c then
    add_score 1 ;;
    set_detail "Switching Cost" (Rendered "✓ {industry}" [industry])
  else skip.

(** 5. Network effects. *)
Definition network_effect_rule (stock_info : snapshot) : M unit :=
  let industry := get stock_info "industry" (PStr "") in
  c <- eval (any_in network_industries industry) ;;
  if c then
    add_score 1 ;;
    set_detail "Network Effect" (Rendered "✓ {industry}" [industry])
  else skip.

(** 6. Niche market. *)
Definition niche_rule (stock_info : snapshot) : M unit :=
  let market_cap := get stock_info "marketCap" (PInt 0) in
  c <- eval (between_lt_lt 1e9 market_cap 10e9) ;;
  if c then
    add_score 0.5 ;;
    set_detail "Niche" (Rendered "⚠ Mid-cap potential niche" [])
  else skip.

(** 7. Longevity. *)
Definition longevity_rule (stock_info : snapshot) : M unit :=
  let market_cap := get stock_info "marketCap" (PInt 0) in
  c <- eval (gt_lit (get stock_info "fiveYearAvgDividendYield" (PInt 0)) 0) ;;
  if c then
    add_score 1 ;;
    set_detail "Longevity" (Rendered "✓ Established (dividend history)" [])
  else
    c2 <- eval (gt_lit market_cap 100e9) ;;
    if c2 then
      add_score 0.5 ;;
      set_detail "Longevity" (Rendered "⚠ Large cap (likely established)" [])
    else skip.

Definition moat_criteria (stock_info : snapshot) : list (M unit) :=
  [ brand_rule stock_info;
    patents_rule stock_info;
    cost_advantage_rule stock_info;
    switching_cost_rule stock_info;
    network_effect_rule stock_info;
    niche_rule stock_info;
    longevity_rule stock_info ].

Definition score_competitive_moat (self : t) (stock_info : snapshot)
  : Q * gmap string detail :=
  try_except (block (moat_criteria stock_info)).

(** *** [calculate_risk_deductions]; the local [deduction] is the
    [score] component of the state *)

Definition high_tech_industries : list string :=
  ["Semiconductor"; "Software—Application"; "Electronics";
   "Consumer Electronics"; "Internet Content"].

Definition gov_industries : list string := ["Aerospace & Defense"; "Government"].

Definition china_countries : list string := ["China"; "Hong Kong"].

(** 1. Technology risk. *)
Definition tech_risk_rule (stock_info : snapshot) : M unit :=
  let industry := get stock_info "industry" (PStr "") in
  c <- eval (any_in high_tech_industries industry) ;;
  if c then
    add_score (-1) ;;
    set_detail "Tech Risk" (Rendered "✗ -{1} ({industry})" [PInt 1; industry])
  else skip.

(** 2. Government risk. *)
Definition gov_risk_rule (stock_info : snapshot) : M unit :=
  let industry := get stock_info "industry" (PStr "") in
  c <- eval (any_in gov_industries industry) ;;
  if c then
    add_score (-1) ;;
    set_detail "Gov Risk" (Rendered "✗ -{1} ({industry})" [PInt 1; industry])
  else skip.

(** 3. China risk. *)
Definition china_risk_rule (stock_info : snapshot) : M unit :=
  let country := get stock_info "country" (PStr "") in
  if in_names country china_countries then
    add_score (-1) ;;
    set_detail "China Risk" (Rendered "✗ -{1} (Chinese company)" [PInt 1])
  else skip.

Definition risk_rules (stock_info : snapshot) : list (M unit) :=
  [ tech_risk_rule stock_info;
    gov_risk_rule stock_info;
    china_risk_rule stock_info ].

Definition calculate_risk_deductions (self : t) (stock_info : snapshot)
  : Q * gmap string detail :=
  try_except (block (risk_rules stock_info)).

(** *** [score_stock] *)

(** The result dict of a scored ticker. *)
Record scored : Type := mkScored {
  ticker : string;
  company_name : pyval;
  sector : pyval;
  industry : pyval;
  market_cap : pyval;
  current_price : pyval;
  financial_score : Q;
  moat_score : Q;
  risk_deduction : Q;
  total_score : Q;
  passing : bool;
  financial_details : gmap string detail;
  moat_details : gmap string detail;
  risk_details : gmap string detail;
  dividend_yield : pyval;
  beta : pyval
}.

(** The result dict of the [except] branch. *)
Record failed : Type := mkFailed {
  failed_ticker : string;
  error : exn;
  failed_total_score : Q;
  failed_passing : bool
}.

Inductive stock_result : Type :=
  | Success (r : scored)
  | Failure (r : failed).

(** [result['total_score']], [result['passing']] *)
Definition result_total_score (r : stock_result) : Q :=
  match r with
  | Success s => total_score s
  | Failure f => failed_total_score f
  end.

Definition result_passing (r : stock_result) : bool :=
  match r with
  | Success s => passing s
  | Failure f => failed_passing f
  end.

(** [yf.Ticker(ticker)], [.info] and [.history(period="5y")]: the data
    provider, which answers with the info dict and the price history or
    raises. *)
Definition provider (H : Type) : Type := string -> result (snapshot * H).

Definition score_stock {H : Type} (self : t) (yf : provider H) (ticker : string)
  : stock_result :=
  match yf ticker with
  | Raise e => Failure (mkFailed ticker e 0 false)
  | Ok (info, hist) =>
      let '(financial_score, financial_details) :=
        score_financial_metrics self info hist in
      let '(moat_score, moat_details) := score_competitive_moat self info in
      let '(risk_deduction, risk_details) := calculate_risk_deductions self info in
      let total_score := financial_score + moat_score + risk_deduction in
      Success
        (mkScored ticker
           (get info "longName" (PStr ticker))
           (get info "sector" (PStr "N/A"))
           (get info "industry" (PStr "N/A"))
           (get info "marketCap" (PInt 0))
           (get info "currentPrice" (PInt 0))
           financial_score moat_score risk_deduction total_score
           (Qle_bool (min_passing_score self) total_score)
           financial_details moat_details risk_details
           (get info "dividendYield" (PInt 0))
           (get info "beta" (PInt 0)))
  end.

End StockScorer.

Import StockScorer.

(** ** The ticker universe and the scoring loop of [main] *)

(** The literal list of [get_all_us_stocks], comments left out. *)
Definition major_tickers : list string :=
  [ "AAPL"; "MSFT"; "GOOGL"; "AMZN"; "META"; "NVDA"; "TSLA";
    "JNJ"; "JPM"; "V"; "WMT"; "PG"; "UNH"; "HD"; "BAC"; "XOM"; "CVX";
    "ABBV"; "MA"; "KO"; "PEP"; "COST"; "MRK"; "TMO"; "AVGO"; "ABT"; "LLY";
    "ORCL"; "ACN"; "NKE"; "CSCO"; "DHR"; "VZ"; "ADBE"; "CRM"; "MCD"; "WFC";
    "MMM"; "AFL"; "APD"; "ADM"; "AOS"; "ABT"; "ABBV"; "ADP"; "ALB"; "ARE";
    "CHRW"; "CAH"; "CAT"; "CB"; "CINF"; "CTAS"; "CLX"; "CL"; "ED"; "ECL";
    "EMR"; "ESS"; "EXR"; "XOM"; "FRT"; "GD"; "GPC"; "HRL"; "ITW"; "IBM";
    "AMD"; "INTC"; "QCOM"; "TXN"; "AMAT"; "LRCX"; "KLAC"; "SNPS"; "CDNS";
    "NOW"; "PANW"; "CRWD"; "ZS"; "DDOG"; "NET"; "SNOW";
    "GS"; "MS"; "C"; "BLK"; "SCHW"; "AXP"; "USB"; "PNC"; "TFC"; "COF";
    "UNH"; "CVS"; "CI"; "HUM"; "ANTM"; "PFE"; "MRNA"; "BMY"; "GILD"; "AMGN";
    "DIS"; "NFLX"; "SBUX"; "NKE"; "LOW"; "TGT"; "TJX"; "ROST"; "DG"; "DLTR";
    "BA"; "HON"; "UPS"; "RTX"; "LMT"; "GE"; "DE"; "EMR"; "MMM";
    "XOM"; "CVX"; "COP"; "SLB"; "EOG"; "MPC"; "PSX"; "VLO";
    "T"; "TMUS"; "VZ"; "NEE"; "DUK"; "SO"; "D"; "AEP";
    "F"; "SOFI"; "PATH"; "PLTR"; "NIO"; "GME"; "INTC" ].

(** [sorted(list(stocks))] for a set of [str]: [list] enumerates the set
    in some order and [sorted] orders the strings by code point, which on
    UTF-8 text is the order of the bytes. *)
Definition sorted_list (stocks : gset string) : list string :=
  merge_sort String.le (elements stocks).

(** [stocks = set(); stocks.update(major_tickers);
     return sorted(list(stocks))]; the two [print] calls write to the
    console only. *)
Definition get_all_us_stocks : list string :=
  let stocks : gset string := ∅ in
  let stocks := stocks ∪ list_to_set major_tickers in
  sorted_list stocks.

(** [result['ticker']] *)
Definition result_ticker (r : stock_result) : string :=
  match r with
  | Success s => ticker s
  | Failure f => failed_ticker f
  end.

(** ['error' in result] *)
Definition has_error (r : stock_result) : bool :=
  match r with
  | Success _ => false
  | Failure _ => true
  end.

(** The loop of [main] over [stock_list]: each result is appended to
    [results].  [score_stock] catches every exception itself, so the
    [except] branch of the loop is not taken; progress lines and the
    half-second pause leave [results] alone. *)
Definition score_each {H : Type} (scorer : t) (yf : provider H)
    (stock_list : list string) : list stock_result :=
  fold_left
    (fun results symbol => (results ++ [score_stock scorer yf symbol])%list)
    stock_list [].

(** [main] up to the end of the loop: [scorer = StockScorer()],
    [stock_list = get_all_us_stocks()], then the loop. *)
Definition main_results {H : Type} (yf : provider H) : list stock_result :=
  let scorer := init in
  let stock_list := get_all_us_stocks in
  score_each scorer yf stock_list.

(** ** What a block does to the locals *)

(** The locals when the block has completed or raised. *)
Definition after {A} (m : M A) (st : state) : state := snd (m st).

(** What a statement adds to the score when run on fresh locals, and
    whether it raises. *)
Definition contribution (m : M unit) : Q := score (after m initial).

Definition raises (m : M unit) : bool :=
  match fst (m initial) with
  | Raise _ => true
  | Ok _ => false
  end.

(** A statement fires when it changes the score. *)
Definition fires (m : M unit) : bool := negb (Qeq_bool (contribution m) 0).

(** The statements of a block that are run: all up to and including the
    first one that raises. *)
Fixpoint executed (stmts : list (M unit)) : list (M unit) :=
  match stmts with
  | [] => []
  | s :: rest => s :: (if raises s then [] else executed rest)
  end.

Fixpoint total (stmts : list (M unit)) : Q :=
  match stmts with
  | [] => 0
  | s :: rest => contribution s + total rest
  end.

(** The score moves by an amount between [lo] and [hi], whether the
    block completes or raises. *)
Definition delta_in {A} (lo hi : Q) (m : M A) : Prop :=
  forall st, score st + lo <= score (after m st) <= score st + hi.

(** A statement is uniform when its outcome and its effect on the score
    do not depend on the locals it starts from, and it leaves the
    ['Error'] entry alone. *)
Definition uniform {A} (m : M A) : Prop :=
  forall st,
    fst (m st) = fst (m initial)
    /\ score (after m st) == score st + score (after m initial)
    /\ details (after m st) !! "Error" = details st !! "Error".

(** The score moves by a whole number of half points. *)
Definition half_steps {A} (m : M A) : Prop :=
  forall st, exists k : Z, score (after m st) == score st + inject_Z k / 2.

(** ** Scenarios and the conditions the properties are stated with *)

(** [{'sector': 'Technology', 'marketCap': 5e9, 'profitMargins': 0.20,
      'industry': 'Software—Application'}] *)
Definition tech_midcap : snapshot :=
  mkSnapshot
    (<["sector" := PStr "Technology"]>
       (<["marketCap" := PFloat (Fin 5e9)]>
          (<["profitMargins" := PFloat (Fin 0.20)]>
             (<["industry" := PStr "Software—Application"]> ∅))))
    None.

(** A snapshot on which every criterion reaches its top tier. *)
Definition top_tier : snapshot :=
  mkSnapshot
    (<["dividendRate" := PFloat (Fin 2.0)]>
       (<["fiveYearAvgDividendYield" := PFloat (Fin 2.5)]>
          (<["sharesOutstanding" := PInt 1000000000]>
             (<["sharesShort" := PInt 1000000]>
                (<["bookValue" := PFloat (Fin 12.5)]> ∅)))))
    (Some (FDict
       (<["earningsGrowth" := PFloat (Fin 0.08)]>
          (<["freeCashflow" := PInt 5000000000]>
             (<["profitMargins" := PFloat (Fin 0.12)]>
                (<["returnOnEquity" := PFloat (Fin 0.18)]>
                   (<["ebit" := PInt 0]>
                      (<["interestExpense" := PInt 0]>
                         (<["debtToEquity" := PInt 20]> ∅))))))))).






(** The industry as the risk rules see it: the default [''] when the key
    is missing, the text when the field holds a [str]. *)
Definition industry_text (stock_info : snapshot) : option string :=
  match fields stock_info !! "industry" with
  | None => Some ""
  | Some (PStr s) => Some s
  | Some _ => None
  end.

(** [{'country': 'China', 'industry': None}] *)
Definition china_no_industry : snapshot :=
  mkSnapshot (<["country" := PStr "China"]> (<["industry" := PNone]> ∅)) None.

(** [{'country': 'Hong Kong', 'industry': 'Banks—Diversified'}] *)
Definition hong_kong_bank : snapshot :=
  mkSnapshot
    (<["country" := PStr "Hong Kong"]>
       (<["industry" := PStr "Banks—Diversified"]> ∅))
    None.

(** A free cash flow that is absent (key missing or [None]) or a number
    [<= 0]; one that is a number [> 0]. *)
Definition not_positive (field : option pyval) : bool :=
  match field with
  | None => true
  | Some PNone => true
  | Some v =>
      match as_number v with
      | Some (Fin q) => Qle_bool q 0
      | Some (Inf negative) => negative
      | _ => false
      end
  end.

Definition positive (field : option pyval) : bool :=
  match field with
  | Some v =>
      match as_number v with
      | Some (Fin q) => Qltb 0 q
      | Some (Inf negative) => negb negative
      | _ => false
      end
  | None => false
  end.

(** An [int] field converts to [float]; any other value is not
    converted. *)
Definition converts (field : option pyval) : bool :=
  match field with
  | Some (PInt n) => fits_float (inject_Z n)
  | _ => true
  end.

(** [{}] and [{'financialData': {'freeCashflow': 10**400}}] *)
Definition no_cash_flow : snapshot := mkSnapshot ∅ None.

Definition huge_cash_flow : snapshot :=
  mkSnapshot ∅ (Some (FDict (<["freeCashflow" := PInt (10 ^ 400)]> ∅))).

(** [{'freeCashflow': -2e9, 'returnOnEquity': 0.2}] and the same with a
    free cash flow of 3e9. *)
Definition burning_cash : gmap string pyval :=
  <["freeCashflow" := PFloat (Fin (-2e9))]>
    (<["returnOnEquity" := PFloat (Fin 0.2)]> ∅).

Definition making_cash : gmap string pyval :=
  <["freeCashflow" := PFloat (Fin 3e9)]>
    (<["returnOnEquity" := PFloat (Fin 0.2)]> ∅).

(** [{'financialData': {'earningsGrowth': 'N/A'}}] *)
Definition malformed_growth : snapshot :=
  mkSnapshot ∅ (Some (FDict (<["earningsGrowth" := PStr "N/A"]> ∅))).

(** [{'sector': 'Technology', 'marketCap': 200e9, 'profitMargins': 0.30,
      'industry': 'Internet Software & Services',
      'fiveYearAvgDividendYield': 1.2}] *)
Definition large_platform : snapshot :=
  mkSnapshot
    (<["sector" := PStr "Technology"]>
       (<["marketCap" := PFloat (Fin 200e9)]>
          (<["profitMargins" := PFloat (Fin 0.30)]>
             (<["industry" := PStr "Internet Software & Services"]>
                (<["fiveYearAvgDividendYield" := PFloat (Fin 1.2)]> ∅)))))
    None.

(** The keys of [stock_info] each scorer reads, besides
    ['financialData']. *)
Definition financial_fields : list string :=
  ["dividendRate"; "fiveYearAvgDividendYield"; "sharesOutstanding";
   "sharesShort"; "longBusinessSummary"; "bookValue"].

Definition moat_fields : list string :=
  ["sector"; "industry"; "marketCap"; "profitMargins";
   "fiveYearAvgDividendYield"].

Definition risk_fields : list string := ["industry"; "country"].

(** Two snapshots agree on a list of keys. *)
Definition agree_on (keys : list string) (s1 s2 : snapshot) : Prop :=
  forall key, key ∈ keys -> fields s1 !! key = fields s2 !! key.

(** The tiers of the profitability criteria for a ratio [q]. *)
Definition net_margin_points (q : Q) : Q :=
  if Qlt_le_dec float_0_10 q then 1
  else if Qlt_le_dec float_0_05 q then 0.5
  else 0.

Definition roe_points (q : Q) : Q :=
  if Qlt_le_dec q float_0_10 then 0
  else if Qlt_le_dec q float_0_15 then 0.5
  else if Qlt_le_dec float_0_40 q then 0
  else 1.

(** The tiers of interest coverage for a ratio [r] of EBIT to interest
    expense. *)
Definition coverage_points (r : Q) : Q :=
  if Qlt_le_dec 10 (Qabs r) then 1
  else if Qlt_le_dec 5 (Qabs r) then 0.5
  else 0.

(** Whether the provider fails on a ticker. *)
Definition provider_fails {H : Type} (yf : provider H) (symbol : string) : bool :=
  match yf symbol with
  | Raise _ => true
  | Ok _ => false
  end.

(** A statement leaves the breakdown entry [key] as it finds it. *)
Definition leaves {A} (key : string) (m : M A) : Prop :=
  forall st, details (after m st) !! key = details st !! key.



Ltac run_block :=
  unfold interpolate;
  unfold after, bind, eval, add_score, set_detail, skip, ret;
  cbn [fst snd score details initial].

Ltac step_cases :=
  repeat match goal with
  | |- context [match ?x with _ => _ end] =>
      lazymatch x with
      | context [match _ with _ => _ end] => fail
      | _ => destruct x eqn:?
      end
  end;
  cbn [fst snd score details initial].

Ltac solve_delta := intros st; run_block; step_cases; lra.

Ltac solve_uniform :=
  intros st; run_block; step_cases;
  (split; [reflexivity | split; [lra | ]]);
  rewrite ?lookup_insert_ne by discriminate; reflexivity.

Section Sequencing.

Lemma delta_seq {A B} lo1 hi1 lo2 hi2 (m : M A) (k : A -> M B) :
  delta_in lo1 hi1 m -> (forall a, delta_in lo2 hi2 (k a)) ->
  lo2 <= 0 <= hi2 ->
  delta_in (lo1 + lo2) (hi1 + hi2) (bind m k).
Proof.
  intros Hm Hk Hz st. specialize (Hm st). unfold after, bind in *.
  destruct (m st) as [[a | e] st']; cbn [snd] in *.
  - specialize (Hk a st'). unfold after in Hk. lra.
  - lra.
Qed.

Lemma delta_skip : delta_in 0 0 skip.
Proof. solve_delta. Qed.

Lemma delta_weaken {A} lo hi lo' hi' (m : M A) :
  delta_in lo hi m -> lo' <= lo -> hi <= hi' -> delta_in lo' hi' m.
Proof. intros Hm Hlo Hhi st. specialize (Hm st). lra. Qed.

(** The score a block of uniform statements leaves is the sum of what
    the executed ones contribute. *)
Lemma block_total (stmts : list (M unit)) :
  Forall uniform stmts ->
  forall st, score (after (block stmts) st) == score st + total (executed stmts).
Proof.
  induction 1 as [| s rest Hs _ IH]; intros st; cbn [block executed total].
  - unfold after, skip, ret. cbn. lra.
  - destruct (Hs st) as (Hr & Hsc & _).
    unfold raises, contribution, after, bind in *.
    destruct (s st) as [[[] | e] st'], (s initial) as [[[] | e0] st0];
      cbn [fst snd total] in *; try discriminate.
    + specialize (IH st'). unfold after in IH. lra.
    + lra.
Qed.

Lemma block_raises (stmts : list (M unit)) :
  Forall uniform stmts ->
  forall st,
    match fst (block stmts st) with
    | Ok _ =>
        existsb raises stmts = false
        /\ details (after (block stmts) st) !! "Error" = details st !! "Error"
    | Raise _ => existsb raises stmts = true
    end.
Proof.
  induction 1 as [| s rest Hs _ IH]; intros st; cbn [block existsb].
  - unfold after, skip, ret. cbn. auto.
  - destruct (Hs st) as (Hr & _ & Hd).
    unfold raises, after, bind in *.
    destruct (s st) as [[[] | e] st'], (s initial) as [[[] | e0] st0];
      cbn [fst snd] in *; try discriminate; cbn [orb]; auto.
    specialize (IH st'). unfold after in IH.
    destruct (fst (block rest st')); [| assumption].
    destruct IH as [-> ->]. auto.
Qed.


Lemma try_except_score (body : M unit) :
  fst (try_except body) = score (after body initial).
Proof.
  unfold try_except, after. destruct (body initial) as [[a | e] st]; reflexivity.
Qed.

End Sequencing.

(** ** The criteria one by one *)

Section FinancialCriteria.

Variable financials : financial_data.
Variable stock_info : snapshot.

Lemma eps_growth_delta : delta_in 0 1 (eps_growth_rule financials).
Proof. unfold eps_growth_rule. solve_delta. Qed.

Lemma dividend_delta : delta_in 0 1 (dividend_rule stock_info).
Proof. unfold dividend_rule. solve_delta. Qed.

Lemma share_count_delta : delta_in 0 0.5 (share_count_rule stock_info).
Proof. unfold share_count_rule. solve_delta. Qed.

Lemma book_value_delta : delta_in 0 0.5 (book_value_rule stock_info).
Proof. unfold book_value_rule. solve_delta. Qed.

Lemma free_cash_flow_delta : delta_in 0 1 (free_cash_flow_rule financials).
Proof. unfold free_cash_flow_rule. solve_delta. Qed.

Lemma net_margin_delta : delta_in 0 1 (net_margin_rule financials).
Proof. unfold net_margin_rule. solve_delta. Qed.

Lemma roe_delta : delta_in 0 1 (roe_rule financials).
Proof. unfold roe_rule. solve_delta. Qed.

Lemma interest_coverage_delta : delta_in 0 1 (interest_coverage_rule financials).
Proof. unfold interest_coverage_rule. solve_delta. Qed.

Lemma debt_equity_delta : delta_in 0 1 (debt_equity_rule financials).
Proof. unfold debt_equity_rule. solve_delta. Qed.

Lemma eps_growth_uniform : uniform (eps_growth_rule financials).
Proof. unfold eps_growth_rule. solve_uniform. Qed.

Lemma dividend_uniform : uniform (dividend_rule stock_info).
Proof. unfold dividend_rule. solve_uniform. Qed.

Lemma share_count_uniform : uniform (share_count_rule stock_info).
Proof. unfold share_count_rule. solve_uniform. Qed.

Lemma book_value_uniform : uniform (book_value_rule stock_info).
Proof. unfold book_value_rule. solve_uniform. Qed.

Lemma free_cash_flow_uniform : uniform (free_cash_flow_rule financials).
Proof. unfold free_cash_flow_rule. solve_uniform. Qed.

Lemma net_margin_uniform : uniform (net_margin_rule financials).
Proof. unfold net_margin_rule. solve_uniform. Qed.

Lemma roe_uniform : uniform (roe_rule financials).
Proof. unfold roe_rule. solve_uniform. Qed.

Lemma interest_coverage_uniform : uniform (interest_coverage_rule financials).
Proof. unfold interest_coverage_rule. solve_uniform. Qed.

Lemma debt_equity_uniform : uniform (debt_equity_rule financials).
Proof. unfold debt_equity_rule. solve_uniform. Qed.

End FinancialCriteria.

Section MoatAndRisk.

Variable stock_info : snapshot.

Lemma brand_delta : delta_in 0 1 (brand_rule stock_info).
Proof. unfold brand_rule. solve_delta. Qed.

Lemma patents_delta : delta_in 0 1 (patents_rule stock_info).
Proof. unfold patents_rule. solve_delta. Qed.

Lemma cost_advantage_delta : delta_in 0 1 (cost_advantage_rule stock_info).
Proof. unfold cost_advantage_rule. solve_delta. Qed.

Lemma switching_cost_delta : delta_in 0 1 (switching_cost_rule stock_info).
Proof. unfold switching_cost_rule. solve_delta. Qed.

Lemma network_effect_delta : delta_in 0 1 (network_effect_rule stock_info).
Proof. unfold network_effect_rule. solve_delta. Qed.

Lemma niche_delta : delta_in 0 0.5 (niche_rule stock_info).
Proof. unfold niche_rule. solve_delta. Qed.

Lemma longevity_delta : delta_in 0 1 (longevity_rule stock_info).
Proof. unfold longevity_rule. solve_delta. Qed.

Lemma tech_risk_delta : delta_in (-1) 0 (tech_risk_rule stock_info).
Proof. unfold tech_risk_rule. solve_delta. Qed.

Lemma gov_risk_delta : delta_in (-1) 0 (gov_risk_rule stock_info).
Proof. unfold gov_risk_rule. solve_delta. Qed.

Lemma china_risk_delta : delta_in (-1) 0 (china_risk_rule stock_info).
Proof. unfold china_risk_rule. solve_delta. Qed.

End MoatAndRisk.

(** ** Bounds on the three scores *)

Lemma financial_block_delta (stock_info : snapshot) :
  delta_in 0 8 (block (financial_criteria stock_info)).
Proof.
  unfold financial_criteria. cbn [block].
  eapply delta_weaken.
  - eapply delta_seq; [apply eps_growth_delta | intros _ | ].
    eapply delta_seq; [apply dividend_delta | intros _ | ].
    eapply delta_seq; [apply share_count_delta | intros _ | ].
    eapply delta_seq; [apply book_value_delta | intros _ | ].
    eapply delta_seq; [apply free_cash_flow_delta | intros _ | ].
    eapply delta_seq; [apply net_margin_delta | intros _ | ].
    eapply delta_seq; [apply roe_delta | intros _ | ].
    eapply delta_seq; [apply interest_coverage_delta | intros _ | ].
    eapply delta_seq; [apply debt_equity_delta | intros _; apply delta_skip | ].
    all: lra.
  - lra.
  - lra.
Qed.

Lemma risk_block_delta (stock_info : snapshot) :
  delta_in (-3) 0 (block (risk_rules stock_info)).
Proof.
  unfold risk_rules. cbn [block].
  eapply delta_weaken.
  - eapply delta_seq; [apply tech_risk_delta | intros _ | ].
    eapply delta_seq; [apply gov_risk_delta | intros _ | ].
    eapply delta_seq; [apply china_risk_delta | intros _; apply delta_skip | ].
    all: lra.
  - lra.
  - lra.
Qed.

(** *** The moat: niche excludes brand and cost advantage *)

Lemma Qltb_lt (a b : Q) : Qltb a b = true <-> a < b.
Proof.
  unfold Qltb. rewrite negb_true_iff, <- not_true_iff_false, Qle_bool_iff.
  split; [apply Qnot_le_lt | apply Qlt_not_le].
Qed.

Lemma Qltb_ge (a b : Q) : Qltb a b = false <-> b <= a.
Proof.
  unfold Qltb. rewrite negb_false_iff. apply Qle_bool_iff.
Qed.

(** A market cap strictly between $1B and $10B is neither above $10B nor
    above $50B. *)
Lemma niche_excludes_large (market_cap : pyval) :
  between_lt_lt 1e9 market_cap 10e9 = Ok true ->
  gt_lit market_cap 10e9 = Ok false /\ gt_lit market_cap 50e9 = Ok false.
Proof.
  unfold between_lt_lt, gt_lit, lt_lit.
  destruct (as_number market_cap) as [[q | [] | ] | ]; try discriminate.
  destruct (Qltb 1e9 q) eqn:Hlo; [| discriminate].
  intros Hhi. injection Hhi as Hhi.
  apply Qltb_lt in Hlo, Hhi.
  split; f_equal; apply Qltb_ge; lra.
Qed.

Section Niche.

Variable stock_info : snapshot.

Let market_cap : pyval := get stock_info "marketCap" (PInt 0).

Lemma brand_delta_niche :
  between_lt_lt 1e9 market_cap 10e9 = Ok true ->
  delta_in 0 0 (brand_rule stock_info).
Proof.
  intros Hn. apply niche_excludes_large in Hn as [_ H50].
  unfold brand_rule. subst market_cap. rewrite H50. solve_delta.
Qed.

Lemma cost_advantage_delta_niche :
  between_lt_lt 1e9 market_cap 10e9 = Ok true ->
  delta_in 0 0 (cost_advantage_rule stock_info).
Proof.
  intros Hn. apply niche_excludes_large in Hn as [H10 _].
  unfold cost_advantage_rule, cost_advantage_test, and_then.
  subst market_cap. rewrite H10. solve_delta.
Qed.

Lemma niche_delta_outside :
  between_lt_lt 1e9 market_cap 10e9 <> Ok true ->
  delta_in 0 0 (niche_rule stock_info).
Proof.
  intros Hn. unfold niche_rule. subst market_cap.
  destruct (between_lt_lt 1e9 _ 10e9) as [[] | e]; [congruence | |]; solve_delta.
Qed.

Lemma moat_block_delta : delta_in 0 6 (block (moat_criteria stock_info)).
Proof.
  unfold moat_criteria. cbn [block].
  destruct (between_lt_lt 1e9 market_cap 10e9) as [[] | e] eqn:Hn.
  - eapply delta_weaken.
    + eapply delta_seq; [apply brand_delta_niche, Hn | intros _ | ].
      eapply delta_seq; [apply patents_delta | intros _ | ].
      eapply delta_seq; [apply cost_advantage_delta_niche, Hn | intros _ | ].
      eapply delta_seq; [apply switching_cost_delta | intros _ | ].
      eapply delta_seq; [apply network_effect_delta | intros _ | ].
      eapply delta_seq; [apply niche_delta | intros _ | ].
      eapply delta_seq; [apply longevity_delta | intros _; apply delta_skip | ].
      all: lra.
    + lra.
    + lra.
  - eapply delta_weaken.
    + eapply delta_seq; [apply brand_delta | intros _ | ].
      eapply delta_seq; [apply patents_delta | intros _ | ].
      eapply delta_seq; [apply cost_advantage_delta | intros _ | ].
      eapply delta_seq; [apply switching_cost_delta | intros _ | ].
      eapply delta_seq; [apply network_effect_delta | intros _ | ].
      eapply delta_seq; [apply niche_delta_outside; congruence | intros _ | ].
      eapply delta_seq; [apply longevity_delta | intros _; apply delta_skip | ].
      all: lra.
    + lra.
    + lra.
  - eapply delta_weaken.
    + eapply delta_seq; [apply brand_delta | intros _ | ].
      eapply delta_seq; [apply patents_delta | intros _ | ].
      eapply delta_seq; [apply cost_advantage_delta | intros _ | ].
      eapply delta_seq; [apply switching_cost_delta | intros _ | ].
      eapply delta_seq; [apply network_effect_delta | intros _ | ].
      eapply delta_seq; [apply niche_delta_outside; congruence | intros _ | ].
      eapply delta_seq; [apply longevity_delta | intros _; apply delta_skip | ].
      all: lra.
    + lra.
    + lra.
Qed.

Lemma no_delta_no_fire (m : M unit) : delta_in 0 0 m -> fires m = false.
Proof.
  intros Hm. specialize (Hm initial). unfold fires, contribution.
  cbn [score initial] in Hm.
  apply negb_false_iff, Qeq_bool_iff. lra.
Qed.

Lemma niche_fires_alone :
  fires (niche_rule stock_info)
  && (fires (brand_rule stock_info) || fires (cost_advantage_rule stock_info))
  = false.
Proof.
  destruct (between_lt_lt 1e9 market_cap 10e9) as [[] | e] eqn:Hn.
  - rewrite (no_delta_no_fire _ (brand_delta_niche Hn)).
    rewrite (no_delta_no_fire _ (cost_advantage_delta_niche Hn)).
    apply andb_false_r.
  - rewrite (no_delta_no_fire (niche_rule stock_info)); [reflexivity |].
    apply niche_delta_outside. congruence.
  - rewrite (no_delta_no_fire (niche_rule stock_info)); [reflexivity |].
    apply niche_delta_outside. congruence.
Qed.

End Niche.

(** ** The composite score *)

(** C1: when the provider answers, [score_stock] returns the scored
    variant, whose three sub-scores are those of the three scorers, whose
    [total_score] is their sum and whose [passing] flag says whether the
    total is at least 7; when the provider raises, it returns the error
    variant, with [passing] false. *)
Theorem score_stock_threshold {H : Type} (yf : provider H) (symbol : string) :
  match yf symbol with
  | Ok (info, hist) =>
      exists r : scored,
        score_stock init yf symbol = Success r
        /\ financial_score r = fst (score_financial_metrics init info hist)
        /\ moat_score r = fst (score_competitive_moat init info)
        /\ risk_deduction r = fst (calculate_risk_deductions init info)
        /\ total_score r = financial_score r + moat_score r + risk_deduction r
        /\ passing r = Qle_bool 7 (total_score r)
        /\ (passing r = true <-> 7 <= total_score r)
  | Raise e =>
      exists f : failed,
        score_stock init yf symbol = Failure f
        /\ error f = e
        /\ failed_passing f = false
  end.
Proof.
  unfold score_stock.
  destruct (yf symbol) as [[info hist] | e].
  - destruct (score_financial_metrics init info hist) as [fs fd].
    destruct (score_competitive_moat init info) as [ms md].
    destruct (calculate_risk_deductions init info) as [rs rd].
    eexists. split; [reflexivity |]. cbn.
    repeat split; auto; apply Qle_bool_iff.
  - eexists. split; [reflexivity |]. cbn. auto.
Qed.

(** C2: for every snapshot the financial score lies in [0, 9], the moat
    score in [0, 7] and the risk deduction in [-3, 0]. *)
Theorem score_ranges {H : Type} (self : t) (stock_info : snapshot)
    (historical_data : H) :
  (0 <= fst (score_financial_metrics self stock_info historical_data) <= 9)
  /\ (0 <= fst (score_competitive_moat self stock_info) <= 7)
  /\ (-3 <= fst (calculate_risk_deductions self stock_info) <= 0).
Proof.
  unfold score_financial_metrics, score_competitive_moat,
    calculate_risk_deductions.
  rewrite !try_except_score.
  pose proof (financial_block_delta stock_info initial) as Hf.
  pose proof (moat_block_delta stock_info initial) as Hm.
  pose proof (risk_block_delta stock_info initial) as Hr.
  cbn [score initial] in Hf, Hm, Hr. lra.
Qed.

(** C10: the moat score never exceeds 6, and the niche rule never fires
    on a snapshot on which the brand rule or the cost-advantage rule
    fires. *)
Theorem moat_at_most_6 (self : t) (stock_info : snapshot) :
  fst (score_competitive_moat self stock_info) <= 6
  /\ fires (niche_rule stock_info)
     && (fires (brand_rule stock_info)
         || fires (cost_advantage_rule stock_info)) = false.
Proof.
  split.
  - unfold score_competitive_moat. rewrite try_except_score.
    pose proof (moat_block_delta stock_info initial) as Hm.
    cbn [score initial] in Hm. lra.
  - apply niche_fires_alone.
Qed.

(** *** The technology mid-cap scenario *)

(** C5, as stated, fails: on the scenario snapshot the moat score is not
    1.5. *)
Lemma tech_midcap_moat_not_1_5 :
  ~ (fst (score_competitive_moat init tech_midcap) == 1.5
     /\ fst (calculate_risk_deductions init tech_midcap) == -1).
Proof.
  intros [Hm _]. vm_compute in Hm. discriminate.
Qed.

(** C5, amended: on the scenario snapshot the moat score is 2.5 (patents
    +1, switching cost +1 because the industry contains [Software], niche
    +0.5) and the risk deduction is -1. *)
Theorem tech_midcap_scores :
  fst (score_competitive_moat init tech_midcap) == 2.5
  /\ fst (calculate_risk_deductions init tech_midcap) == -1
  /\ dom (snd (score_competitive_moat init tech_midcap))
     = {["Patents"; "Switching Cost"; "Niche"]}
  /\ dom (snd (calculate_risk_deductions init tech_midcap)) = {["Tech Risk"]}.
Proof.
  repeat split; vm_compute; reflexivity.
Qed.

(** *** The highest financial score *)

(** C6: the documented maximum of 9 is out of reach.  The share-count
    and book-value criteria add 0.5 where the docstring lists 1 point
    each, so no snapshot scores more than 8, and [top_tier], on which
    every criterion reaches its top tier, scores exactly 8. *)
Theorem financial_maximum_is_8 :
  (forall (self : t) (stock_info : snapshot),
     fst (score_financial_metrics self stock_info tt) <= 8)
  /\ fst (score_financial_metrics init top_tier tt) == 8
  /\ snd (score_financial_metrics init top_tier tt) !! "Error" = None.
Proof.
  split; [| split].
  - intros self stock_info.
    unfold score_financial_metrics. rewrite try_except_score.
    pose proof (financial_block_delta stock_info initial) as Hf.
    cbn [score initial] in Hf. lra.
  - vm_compute. reflexivity.
  - vm_compute. reflexivity.
Qed.

(** ** Debt/equity and interest coverage *)

Lemma Qltb_dec (a b : Q) : Qltb a b = if Qlt_le_dec a b then true else false.
Proof.
  destruct (Qlt_le_dec a b) as [Hlt | Hge].
  - apply Qltb_lt, Hlt.
  - apply Qltb_ge, Hge.
Qed.







(** ** Country risk *)

Lemma any_in_str (needles : list string) (s : string) :
  any_in needles (PStr s) = Ok (existsb (str_contains s) needles).
Proof.
  induction needles as [| x rest IH]; cbn; [reflexivity |].
  destruct (str_contains s x); [reflexivity | exact IH].
Qed.

(** C7, as stated, fails: with the industry field [None] the substring
    test raises before the country is looked at, and the deduction is 0. *)
Lemma china_no_industry_not_deducted :
  ~ fst (calculate_risk_deductions init china_no_industry) <= -1.
Proof.
  intros Hle. vm_compute in Hle. apply Hle. reflexivity.
Qed.

(** C7, amended: for every snapshot whose industry field is missing or a
    string and whose country is China or Hong Kong, the deduction is at
    most -1; it is -1 less one for a high-volatility-tech match and one
    for a government/defense match, hence exactly -1 when the industry
    matches neither list. *)
Theorem china_risk (self : t) (stock_info : snapshot) (s : string) :
  industry_text stock_info = Some s ->
  fields stock_info !! "country" = Some (PStr "China")
  \/ fields stock_info !! "country" = Some (PStr "Hong Kong") ->
  fst (calculate_risk_deductions self stock_info) <= -1
  /\ fst (calculate_risk_deductions self stock_info)
     == -1 + (if existsb (str_contains s) high_tech_industries then -1 else 0)
           + (if existsb (str_contains s) gov_industries then -1 else 0)
  /\ (existsb (str_contains s) (high_tech_industries ++ gov_industries) = false ->
      fst (calculate_risk_deductions self stock_info) == -1).
Proof.
  intros Hind Hcountry.
  assert (Hi : get stock_info "industry" (PStr "") = PStr s).
  { unfold industry_text in Hind. unfold get.
    destruct (fields stock_info !! "industry") as [[| | | |] |];
      try discriminate; congruence. }
  assert (Hc : in_names (get stock_info "country" (PStr "")) china_countries = true).
  { unfold get. destruct Hcountry as [-> | ->]; reflexivity. }
  assert (Hval :
    fst (calculate_risk_deductions self stock_info)
    == -1 + (if existsb (str_contains s) high_tech_industries then -1 else 0)
          + (if existsb (str_contains s) gov_industries then -1 else 0)).
  { unfold calculate_risk_deductions. rewrite try_except_score.
    unfold risk_rules, tech_risk_rule, gov_risk_rule, china_risk_rule.
    rewrite Hi, Hc, !any_in_str. cbn [block]. run_block.
    destruct (existsb (str_contains s) high_tech_industries),
             (existsb (str_contains s) gov_industries);
      cbn [fst snd score details initial]; lra. }
  split; [| split].
  - rewrite Hval.
    destruct (existsb (str_contains s) high_tech_industries),
             (existsb (str_contains s) gov_industries); lra.
  - exact Hval.
  - rewrite existsb_app. intros Hnone. apply orb_false_iff in Hnone as [Ht Hg].
    rewrite Hval, Ht, Hg. lra.
Qed.

Lemma china_risk_witness :
  fst (calculate_risk_deductions init hong_kong_bank) <= -1
  /\ fst (calculate_risk_deductions init hong_kong_bank) == -1.
Proof.
  destruct (china_risk init hong_kong_bank "Banks—Diversified")
    as (Hle & _ & Hexact).
  - reflexivity.
  - right. reflexivity.
  - split; [exact Hle | apply Hexact; reflexivity].
Defined.

(** ** Free cash flow *)

Lemma free_cash_flow_not_positive (d : gmap string pyval) (st : state) :
  not_positive (d !! "freeCashflow") = true ->
  free_cash_flow_rule (FDict d) st
  = (Ok tt,
     mkState (score st) (<["FCF" := Rendered "✗ Negative or N/A" []]> (details st))).
Proof.
  intros Hn. unfold free_cash_flow_rule, fget. run_block.
  assert (Hc : and_then
                 (truthy (match d !! "freeCashflow" with
                          | Some v => v | None => PInt 0 end))
                 (gt_lit (match d !! "freeCashflow" with
                          | Some v => v | None => PInt 0 end) 0) = Ok false).
  { destruct (d !! "freeCashflow") as [[| b | n | [q | neg | ] | s] |];
      cbn in Hn |- *; try discriminate; try reflexivity.
    - destruct b; [discriminate | reflexivity].
    - destruct (negb (n =? 0)%Z); [| reflexivity].
      apply Qle_bool_iff in Hn. unfold and_then. f_equal. apply Qltb_ge, Hn.
    - destruct (negb (Qeq_bool q 0)); [| reflexivity].
      apply Qle_bool_iff in Hn. unfold and_then. f_equal. apply Qltb_ge, Hn.
    - subst neg. reflexivity. }
  rewrite Hc. reflexivity.
Qed.

Lemma free_cash_flow_positive (d : gmap string pyval) (st : state) :
  positive (d !! "freeCashflow") = true ->
  converts (d !! "freeCashflow") = true ->
  fst (free_cash_flow_rule (FDict d) st) = Ok tt
  /\ score (after (free_cash_flow_rule (FDict d)) st) = score st + 1.
Proof.
  intros Hp Hc. unfold free_cash_flow_rule, fget. run_block.
  destruct (d !! "freeCashflow") as [[| b | n | [q | neg | ] | s] |];
    cbn in Hp, Hc; try discriminate.
  - destruct b; [| discriminate]. cbn. auto.
  - assert (Hn : negb (n =? 0)%Z = true).
    { apply Qltb_lt in Hp. unfold Qlt in Hp. cbn in Hp.
      apply negb_true_iff, Z.eqb_neq. lia. }
    cbn [truthy and_then]. rewrite Hn. cbn [gt_lit as_number]. rewrite Hp.
    cbn [fst snd score details].
    unfold truediv. cbn [as_number as_int to_float]. unfold float_of_int.
    rewrite Hc. cbn. auto.
  - assert (Hn : negb (Qeq_bool q 0) = true).
    { apply Qltb_lt in Hp. apply negb_true_iff, not_true_iff_false.
      rewrite Qeq_bool_iff. lra. }
    cbn [truthy and_then]. rewrite Hn. cbn [gt_lit as_number]. rewrite Hp.
    cbn. auto.
  - destruct neg; [discriminate |]. cbn. auto.
Qed.

(** C8, as stated, fails: an [int] free cash flow too large for a
    [float] raises [OverflowError] in [free_cash_flow/1e9], after the point
    was added and before the remaining four criteria run, two of which add
    a point on an otherwise empty snapshot. *)
Lemma huge_cash_flow_scores_less :
  ~ fst (score_financial_metrics init no_cash_flow tt)
    <= fst (score_financial_metrics init huge_cash_flow tt).
Proof.
  intros Hle. vm_compute in Hle. apply Hle. reflexivity.
Qed.

Lemma financial_criteria_uniform (stock_info : snapshot) :
  Forall uniform (financial_criteria stock_info).
Proof.
  unfold financial_criteria.
  repeat apply List.Forall_cons; [ .. | apply List.Forall_nil].
  - apply eps_growth_uniform.
  - apply dividend_uniform.
  - apply share_count_uniform.
  - apply book_value_uniform.
  - apply free_cash_flow_uniform.
  - apply net_margin_uniform.
  - apply roe_uniform.
  - apply interest_coverage_uniform.
  - apply debt_equity_uniform.
Qed.

Lemma financial_score_total {H : Type} (self : t) (stock_info : snapshot)
    (historical_data : H) :
  fst (score_financial_metrics self stock_info historical_data)
  == total (executed (financial_criteria stock_info)).
Proof.
  unfold score_financial_metrics. rewrite try_except_score.
  rewrite (block_total _ (financial_criteria_uniform stock_info) initial).
  cbn [score initial]. lra.
Qed.

(** C8, amended: take two snapshots that agree on every field but
    ['freeCashflow'], the first with a free cash flow that is absent or
    [<= 0], the second with one that is [> 0] and, when an [int], small
    enough to convert to [float].  Then the second scores at least what
    the first does. *)
Theorem free_cash_flow_monotone {H : Type} (self : t) (hist : H)
    (s1 s2 : snapshot) (d1 d2 : gmap string pyval) :
  fields s1 = fields s2 ->
  get_financials s1 = FDict d1 ->
  get_financials s2 = FDict d2 ->
  (forall key, key <> "freeCashflow" -> d1 !! key = d2 !! key) ->
  not_positive (d1 !! "freeCashflow") = true ->
  positive (d2 !! "freeCashflow") = true ->
  converts (d2 !! "freeCashflow") = true ->
  fst (score_financial_metrics self s1 hist)
  <= fst (score_financial_metrics self s2 hist).
Proof.
  intros Hfields Hf1 Hf2 Hsame Hlo Hhi Hconv.
  rewrite !financial_score_total.
  unfold financial_criteria. rewrite Hf1, Hf2.
  assert (He : eps_growth_rule (FDict d1) = eps_growth_rule (FDict d2)).
  { unfold eps_growth_rule, fget. rewrite Hsame by discriminate. reflexivity. }
  assert (Hm : net_margin_rule (FDict d1) = net_margin_rule (FDict d2)).
  { unfold net_margin_rule, fget. rewrite Hsame by discriminate. reflexivity. }
  assert (Hr : roe_rule (FDict d1) = roe_rule (FDict d2)).
  { unfold roe_rule, fget. rewrite Hsame by discriminate. reflexivity. }
  assert (Hi : interest_coverage_rule (FDict d1) = interest_coverage_rule (FDict d2)).
  { unfold interest_coverage_rule, fget.
    rewrite (Hsame "ebit"), (Hsame "interestExpense") by discriminate.
    reflexivity. }
  assert (Hd : debt_equity_rule (FDict d1) = debt_equity_rule (FDict d2)).
  { unfold debt_equity_rule, fget. rewrite Hsame by discriminate. reflexivity. }
  rewrite He, Hm, Hr, Hi, Hd.
  assert (Hdiv : dividend_rule s1 = dividend_rule s2).
  { unfold dividend_rule, get. rewrite Hfields. reflexivity. }
  assert (Hsh : share_count_rule s1 = share_count_rule s2).
  { unfold share_count_rule, get. rewrite Hfields. reflexivity. }
  assert (Hbk : book_value_rule s1 = book_value_rule s2).
  { unfold book_value_rule, get. rewrite Hfields. reflexivity. }
  rewrite Hdiv, Hsh, Hbk.
  pose proof (free_cash_flow_not_positive d1 initial Hlo) as H1.
  destruct (free_cash_flow_positive d2 initial Hhi Hconv) as [H2r H2s].
  assert (Hr1 : raises (free_cash_flow_rule (FDict d1)) = false).
  { unfold raises. rewrite H1. reflexivity. }
  assert (Hc1 : contribution (free_cash_flow_rule (FDict d1)) == 0).
  { unfold contribution, after. rewrite H1. reflexivity. }
  assert (Hr2 : raises (free_cash_flow_rule (FDict d2)) = false).
  { unfold raises. rewrite H2r. reflexivity. }
  assert (Hc2 : contribution (free_cash_flow_rule (FDict d2)) == 1).
  { unfold contribution. rewrite H2s. cbn. lra. }
  cbn [executed total].
  rewrite Hr1, Hr2.
  repeat match goal with
  | |- context [if raises ?m then _ else _] => destruct (raises m)
  end;
  cbn [total]; rewrite ?Hc1, ?Hc2; lra.
Qed.

Lemma free_cash_flow_monotone_witness :
  fst (score_financial_metrics init (mkSnapshot ∅ (Some (FDict burning_cash))) tt)
  <= fst (score_financial_metrics init (mkSnapshot ∅ (Some (FDict making_cash))) tt).
Proof.
  apply (@free_cash_flow_monotone unit init tt _ _ burning_cash making_cash).
  - reflexivity.
  - reflexivity.
  - reflexivity.
  - intros key Hkey. unfold burning_cash, making_cash.
    rewrite !(lookup_insert_ne _ "freeCashflow") by congruence. reflexivity.
  - reflexivity.
  - reflexivity.
  - reflexivity.
Defined.

(** ** Totality and the one [try] block *)

(** C9, as stated, fails: with a malformed ['earningsGrowth'] the first
    criterion raises and the score returned is not the sum of what the
    nine criteria contribute on their own fields; interest coverage and
    debt/equity would each add a point. *)
Lemma malformed_growth_not_isolated :
  ~ fst (score_financial_metrics init malformed_growth tt)
    == total (financial_criteria malformed_growth).
Proof.
  intros Heq. vm_compute in Heq. discriminate.
Qed.

(** C9, amended: [score_financial_metrics] returns a (score, details)
    pair for every snapshot, whatever is absent or malformed.  The nine
    criteria run in order inside one [try] block, and each contributes as
    evaluated on its own fields, whatever the locals hold.  The score
    returned is the sum over the criteria up to and including the first
    one that raises; the criteria after it contribute nothing.  The
    ['Error'] entry is there exactly when a criterion raised. *)
Theorem financial_metrics_total {H : Type} (self : t) (stock_info : snapshot)
    (historical_data : H) :
  let criteria := financial_criteria stock_info in
  let result := score_financial_metrics self stock_info historical_data in
  Forall uniform criteria
  /\ fst result == total (executed criteria)
  /\ (existsb raises criteria = false ->
      executed criteria = criteria /\ snd result !! "Error" = None)
  /\ (existsb raises criteria = true ->
      exists e, snd result !! "Error" = Some (Message e)).
Proof.
  cbn zeta.
  pose proof (financial_criteria_uniform stock_info) as Hu.
  split; [exact Hu | split; [apply financial_score_total | ]].
  pose proof (block_raises _ Hu initial) as Hb.
  unfold score_financial_metrics, try_except, after in *.
  destruct (block (financial_criteria stock_info) initial) as [[[] | e] st];
    cbn [fst snd] in *.
  - destruct Hb as [Hnone Herr]. split; [| congruence].
    intros _. split; [| rewrite Herr; reflexivity].
    clear -Hnone. induction (financial_criteria stock_info) as [| c rest IH];
      [reflexivity |].
    cbn [existsb executed] in *. apply orb_false_iff in Hnone as [-> Hrest].
    f_equal. apply IH, Hrest.
  - split; [congruence |].
    intros _. exists e. apply lookup_insert_eq.
Qed.

(** ** Further properties of the scorers *)

(** *** The moat at its highest *)

(** A consumer sector is not a patent sector. *)
Lemma consumer_not_patent (v : pyval) :
  in_names v consumer_sectors = true -> in_names v patent_sectors = false.
Proof.
  destruct v as [| | | | s]; cbn; try discriminate.
  rewrite !orb_false_r, !orb_true_iff.
  intros [Hs | [Hs | Hs]]; apply String.eqb_eq in Hs; subst s; reflexivity.
Qed.

Lemma brand_delta_other_sector (stock_info : snapshot) :
  in_names (get stock_info "sector" (PStr "")) consumer_sectors = false ->
  delta_in 0 0.5 (brand_rule stock_info).
Proof. intros Hs. unfold brand_rule. rewrite Hs. solve_delta. Qed.

Lemma patents_delta_consumer (stock_info : snapshot) :
  in_names (get stock_info "sector" (PStr "")) consumer_sectors = true ->
  delta_in 0 0 (patents_rule stock_info).
Proof.
  intros Hs. apply consumer_not_patent in Hs.
  unfold patents_rule. rewrite Hs. solve_delta.
Qed.

Ltac moat_chain brand patents cost niche longevity :=
  eapply delta_weaken;
  [ eapply delta_seq; [brand | intros _ | ];
    [ eapply delta_seq; [patents | intros _ | ];
      [ eapply delta_seq; [cost | intros _ | ];
        [ eapply delta_seq; [apply switching_cost_delta | intros _ | ];
          [ eapply delta_seq; [apply network_effect_delta | intros _ | ];
            [ eapply delta_seq; [niche | intros _ | ];
              [ eapply delta_seq; [longevity | intros _; apply delta_skip | ];
                lra
              | lra ]
            | lra ]
          | lra ]
        | lra ]
      | lra ]
    | lra ]
  | lra
  | lra ].

(** The first six rules add at most 4.5; the longevity rule adds the
    rest. *)
Lemma moat_block_delta_longevity (stock_info : snapshot) (hi : Q) :
  delta_in 0 hi (longevity_rule stock_info) -> 0 <= hi ->
  delta_in 0 (4.5 + hi) (block (moat_criteria stock_info)).
Proof.
  intros Hl Hhi. unfold moat_criteria. cbn [block].
  destruct (between_lt_lt 1e9 (get stock_info "marketCap" (PInt 0)) 10e9)
    as [[] | e] eqn:Hn;
    [ moat_chain ltac:(apply brand_delta_niche, Hn)
                 ltac:(apply patents_delta)
                 ltac:(apply cost_advantage_delta_niche, Hn)
                 ltac:(apply niche_delta)
                 ltac:(apply Hl)
    | | ];
    (destruct (in_names (get stock_info "sector" (PStr "")) consumer_sectors)
       eqn:Hs;
     [ moat_chain ltac:(apply brand_delta)
                  ltac:(apply patents_delta_consumer, Hs)
                  ltac:(apply cost_advantage_delta)
                  ltac:(apply niche_delta_outside; rewrite Hn; discriminate)
                  ltac:(apply Hl)
     | moat_chain ltac:(apply brand_delta_other_sector, Hs)
                  ltac:(apply patents_delta)
                  ltac:(apply cost_advantage_delta)
                  ltac:(apply niche_delta_outside; rewrite Hn; discriminate)
                  ltac:(apply Hl) ]).
Qed.

Lemma moat_block_delta_tight (stock_info : snapshot) :
  delta_in 0 5.5 (block (moat_criteria stock_info)).
Proof.
  eapply delta_weaken.
  - apply (moat_block_delta_longevity stock_info 1);
      [apply longevity_delta | lra].
  - lra.
  - lra.
Qed.

(** X1: the moat score never exceeds 5.5, short of the documented 7: the
    full brand point needs a consumer sector and the patents point a
    healthcare or technology sector, and the niche half point excludes
    brand and cost advantage.  [large_platform] scores exactly 5.5. *)
Theorem moat_maximum_is_5_5 :
  (forall (self : t) (stock_info : snapshot),
     fst (score_competitive_moat self stock_info) <= 5.5)
  /\ fst (score_competitive_moat init large_platform) == 5.5
  /\ snd (score_competitive_moat init large_platform) !! "Error" = None.
Proof.
  split; [| split].
  - intros self stock_info.
    unfold score_competitive_moat. rewrite try_except_score.
    pose proof (moat_block_delta_tight stock_info initial) as Hm.
    cbn [score initial] in Hm. lra.
  - vm_compute. reflexivity.
  - vm_compute. reflexivity.
Qed.

(** X2: the total of a scored ticker lies between -3 and 13.5, so the
    16 of the progress line is out of reach, and a passing ticker has at
    least 7 points from the financial and moat scores together; the error
    variant carries a total of 0. *)
Theorem total_score_range {H : Type} (self : t) (yf : provider H)
    (symbol : string) :
  match score_stock self yf symbol with
  | Success r =>
      -3 <= total_score r <= 13.5
      /\ (passing r = true ->
          min_passing_score self <= financial_score r + moat_score r)
  | Failure f => failed_total_score f = 0 /\ failed_passing f = false
  end.
Proof.
  unfold score_stock.
  destruct (yf symbol) as [[info hist] | e]; [| split; reflexivity].
  pose proof (financial_block_delta info initial) as Hf.
  pose proof (moat_block_delta_tight info initial) as Hm.
  pose proof (risk_block_delta info initial) as Hr.
  pose proof (try_except_score (block (financial_criteria info))) as Ef.
  pose proof (try_except_score (block (moat_criteria info))) as Em.
  pose proof (try_except_score (block (risk_rules info))) as Er.
  unfold score_financial_metrics, score_competitive_moat,
    calculate_risk_deductions.
  destruct (try_except (block (financial_criteria info))) as [fs fd].
  destruct (try_except (block (moat_criteria info))) as [ms md].
  destruct (try_except (block (risk_rules info))) as [rs rd].
  cbn [fst score initial total_score passing financial_score moat_score] in *.
  subst fs ms rs. split; [lra |].
  intros Hp. apply Qle_bool_iff in Hp. lra.
Qed.

(** *** The ['financialData'] entry *)

(** X3: when ['financialData'] holds anything but a dict, the first
    [financials.get] raises and [score_financial_metrics] returns a score
    of 0 with the ['Error'] entry alone, whatever the other fields are. *)
Theorem financial_data_not_a_dict {H : Type} (self : t)
    (info : gmap string pyval) (v : pyval) (hist : H) :
  score_financial_metrics self (mkSnapshot info (Some (FScalar v))) hist
  = (0, {["Error" := Message AttributeError]}).
Proof. reflexivity. Qed.

(** No ['Error'] entry means no statement of the block raised. *)
Lemma no_error_no_raise (stmts : list (M unit)) :
  Forall uniform stmts ->
  snd (try_except (block stmts)) !! "Error" = None ->
  existsb raises stmts = false.
Proof.
  intros Hu. pose proof (block_raises _ Hu initial) as Hb.
  unfold try_except.
  destruct (block stmts initial) as [[[] | e] st]; cbn [fst snd] in *.
  - intros _. apply Hb.
  - rewrite lookup_insert_eq. discriminate.
Qed.

Lemma raised_has_error (stmts : list (M unit)) :
  Forall uniform stmts ->
  existsb raises stmts = true ->
  exists e, snd (try_except (block stmts)) !! "Error" = Some (Message e).
Proof.
  intros Hu Hr. pose proof (block_raises _ Hu initial) as Hb.
  unfold try_except.
  destruct (block stmts initial) as [[[] | e] st]; cbn [fst snd] in *.
  - destruct Hb as [Hb _]. congruence.
  - exists e. apply lookup_insert_eq.
Qed.



(** *** The risk rules in full *)

Lemma industry_text_get (stock_info : snapshot) (s : string) :
  industry_text stock_info = Some s ->
  get stock_info "industry" (PStr "") = PStr s.
Proof.
  unfold industry_text, get.
  destruct (fields stock_info !! "industry") as [[| | | |] |];
    try discriminate; congruence.
Qed.

(** X5: when the industry is missing or a string, the deduction is one
    point for each of the three risks that applies (a high-volatility
    tech substring, a government/defense substring, a country of China or
    Hong Kong); the breakdown holds exactly the entries of the risks that
    apply, so the deduction is minus the number of entries. *)
Theorem risk_deduction_breakdown (self : t) (stock_info : snapshot) (s : string) :
  industry_text stock_info = Some s ->
  let tech := existsb (str_contains s) high_tech_industries in
  let gov := existsb (str_contains s) gov_industries in
  let china := in_names (get stock_info "country" (PStr "")) china_countries in
  let result := calculate_risk_deductions self stock_info in
  fst result
  == (if tech then -1 else 0) + (if gov then -1 else 0)
     + (if china then -1 else 0)
  /\ dom (snd result)
     = ((if tech then {["Tech Risk"]} else ∅)
        ∪ (if gov then {["Gov Risk"]} else ∅)
        ∪ (if china then {["China Risk"]} else ∅) : gset string)
  /\ fst result == - inject_Z (Z.of_nat (size (snd result))).
Proof.
  intros Hind. cbn zeta. apply industry_text_get in Hind.
  assert (Hmain :
    fst (calculate_risk_deductions self stock_info)
    == (if existsb (str_contains s) high_tech_industries then -1 else 0)
       + (if existsb (str_contains s) gov_industries then -1 else 0)
       + (if in_names (get stock_info "country" (PStr "")) china_countries
          then -1 else 0)
    /\ dom (snd (calculate_risk_deductions self stock_info))
       = ((if existsb (str_contains s) high_tech_industries
           then {["Tech Risk"]} else ∅)
          ∪ (if existsb (str_contains s) gov_industries
             then {["Gov Risk"]} else ∅)
          ∪ (if in_names (get stock_info "country" (PStr "")) china_countries
             then {["China Risk"]} else ∅) : gset string)).
  { unfold calculate_risk_deductions, try_except, risk_rules,
      tech_risk_rule, gov_risk_rule, china_risk_rule.
    rewrite Hind, !any_in_str. cbn [block]. run_block.
    destruct (existsb (str_contains s) high_tech_industries),
             (existsb (str_contains s) gov_industries),
             (in_names (get stock_info "country" (PStr "")) china_countries);
      cbn [fst snd score details initial];
      (split; [lra | rewrite ?dom_insert_L, dom_empty_L; set_solver]). }
  destruct Hmain as [Hscore Hdom].
  split; [exact Hscore | split; [exact Hdom |]].
  rewrite Hscore, <- size_dom, Hdom.
  destruct (existsb (str_contains s) high_tech_industries),
           (existsb (str_contains s) gov_industries),
           (in_names (get stock_info "country" (PStr "")) china_countries);
    vm_compute; reflexivity.
Qed.

Lemma risk_deduction_breakdown_witness :
  fst (calculate_risk_deductions init tech_midcap) == -1 + 0 + 0.
Proof.
  apply (risk_deduction_breakdown init tech_midcap "Software—Application").
  reflexivity.
Defined.

(** X6: when the industry field holds anything but a string, the first
    substring test raises; the deduction is 0 and the breakdown holds the
    ['Error'] entry alone, whatever the country is. *)
Theorem risk_industry_not_a_string (self : t) (stock_info : snapshot) :
  industry_text stock_info = None ->
  calculate_risk_deductions self stock_info
  = (0, {["Error" := Message TypeError]}).
Proof.
  unfold industry_text. intros Hind.
  unfold calculate_risk_deductions, try_except, risk_rules, tech_risk_rule, get.
  destruct (fields stock_info !! "industry") as [[| b | n | f | s] |];
    try discriminate; reflexivity.
Qed.

Lemma risk_industry_not_a_string_witness :
  calculate_risk_deductions init china_no_industry
  = (0, {["Error" := Message TypeError]}).
Proof.
  apply (risk_industry_not_a_string init china_no_industry). reflexivity.
Defined.

(** *** The moat rules on fields that are not numbers *)

Section MoatUniform.

Variable stock_info : snapshot.

Lemma brand_uniform : uniform (brand_rule stock_info).
Proof. unfold brand_rule. solve_uniform. Qed.

Lemma patents_uniform : uniform (patents_rule stock_info).
Proof. unfold patents_rule. solve_uniform. Qed.

Lemma cost_advantage_uniform : uniform (cost_advantage_rule stock_info).
Proof. unfold cost_advantage_rule. solve_uniform. Qed.

Lemma switching_cost_uniform : uniform (switching_cost_rule stock_info).
Proof. unfold switching_cost_rule. solve_uniform. Qed.

Lemma network_effect_uniform : uniform (network_effect_rule stock_info).
Proof. unfold network_effect_rule. solve_uniform. Qed.

Lemma niche_uniform : uniform (niche_rule stock_info).
Proof. unfold niche_rule. solve_uniform. Qed.

Lemma longevity_uniform : uniform (longevity_rule stock_info).
Proof. unfold longevity_rule. solve_uniform. Qed.

Lemma moat_criteria_uniform : Forall uniform (moat_criteria stock_info).
Proof.
  unfold moat_criteria.
  repeat apply List.Forall_cons; [ .. | apply List.Forall_nil].
  - apply brand_uniform.
  - apply patents_uniform.
  - apply cost_advantage_uniform.
  - apply switching_cost_uniform.
  - apply network_effect_uniform.
  - apply niche_uniform.
  - apply longevity_uniform.
Qed.

End MoatUniform.

(** X7: a market cap that is present but not a number ([None], a
    string) makes the first rule raise: the moat score is 0 and the
    breakdown holds the ['Error'] entry alone, whatever the sector,
    industry and margin are. *)
Theorem moat_market_cap_not_a_number (self : t) (stock_info : snapshot) :
  as_number (get stock_info "marketCap" (PInt 0)) = None ->
  score_competitive_moat self stock_info
  = (0, {["Error" := Message TypeError]}).
Proof.
  intros Hcap.
  unfold score_competitive_moat, try_except, moat_criteria, brand_rule.
  cbn [block]. unfold bind, eval, gt_lit. rewrite Hcap. reflexivity.
Qed.

(** [{'marketCap': None, 'sector': 'Technology'}] *)
Lemma moat_market_cap_not_a_number_witness :
  score_competitive_moat init
    (mkSnapshot (<["marketCap" := PNone]> (<["sector" := PStr "Technology"]> ∅))
       None)
  = (0, {["Error" := Message TypeError]}).
Proof.
  apply moat_market_cap_not_a_number. reflexivity.
Defined.

Lemma longevity_not_a_number (stock_info : snapshot) :
  as_number (get stock_info "fiveYearAvgDividendYield" (PInt 0)) = None ->
  raises (longevity_rule stock_info) = true
  /\ delta_in 0 0 (longevity_rule stock_info).
Proof.
  intros Hy. split.
  - unfold raises, longevity_rule, bind, eval, gt_lit. rewrite Hy. reflexivity.
  - unfold longevity_rule, gt_lit. rewrite Hy. solve_delta.
Qed.

(** X8: a five-year dividend yield that is present but not a number
    ([None], a string) always
    leaves an ['Error'] entry in the moat breakdown, and the moat score is
    then at most 4.5: the comparison of rule 7 raises, so neither
    longevity tier is awarded, not even the large-cap half point. *)
Theorem moat_yield_not_a_number (self : t) (stock_info : snapshot) :
  as_number (get stock_info "fiveYearAvgDividendYield" (PInt 0)) = None ->
  (exists e, snd (score_competitive_moat self stock_info) !! "Error"
             = Some (Message e))
  /\ fst (score_competitive_moat self stock_info) <= 4.5.
Proof.
  intros Hy. destruct (longevity_not_a_number _ Hy) as [Hr Hd]. split.
  - unfold score_competitive_moat.
    apply raised_has_error; [apply moat_criteria_uniform |].
    unfold moat_criteria. cbn [existsb]. rewrite Hr.
    rewrite !orb_true_r. reflexivity.
  - unfold score_competitive_moat. rewrite try_except_score.
    pose proof (moat_block_delta_longevity stock_info 0 Hd) as Hm.
    specialize (Hm ltac:(lra) initial). cbn [score initial] in Hm. lra.
Qed.

(** [{'marketCap': 200e9, 'fiveYearAvgDividendYield': None}] *)
Lemma moat_yield_not_a_number_witness :
  fst (score_competitive_moat init
         (mkSnapshot
            (<["marketCap" := PFloat (Fin 200e9)]>
               (<["fiveYearAvgDividendYield" := PNone]> ∅))
            None))
  <= 4.5.
Proof.
  apply moat_yield_not_a_number. reflexivity.
Defined.

(** *** Granularity of the scores *)

Ltac halves := unfold Qdiv, inject_Z in *; change (/ 2) with (1 # 2) in *; lra.

Ltac solve_half_steps :=
  intros st; run_block; step_cases;
  first [ exists 0%Z; halves | exists 1%Z; halves
        | exists 2%Z; halves | exists (-2)%Z; halves ].

Lemma half_steps_seq {A B} (m : M A) (k : A -> M B) :
  half_steps m -> (forall a, half_steps (k a)) -> half_steps (bind m k).
Proof.
  intros Hm Hk st. destruct (Hm st) as [i Hi].
  unfold after, bind in *.
  destruct (m st) as [[a | e] st']; cbn [snd] in *.
  - destruct (Hk a st') as [j Hj]. unfold after in Hj.
    exists (i + j)%Z. rewrite inject_Z_plus. rewrite Hj, Hi. field.
  - exists i. exact Hi.
Qed.

Lemma half_steps_block (stmts : list (M unit)) :
  Forall half_steps stmts -> half_steps (block stmts).
Proof.
  induction 1 as [| s rest Hs _ IH]; cbn [block].
  - intros st. exists 0%Z. unfold after, skip, ret. cbn [snd]. halves.
  - apply half_steps_seq; [exact Hs | intros _; exact IH].
Qed.

Lemma financial_criteria_half_steps (stock_info : snapshot) :
  Forall half_steps (financial_criteria stock_info).
Proof.
  unfold financial_criteria.
  repeat apply List.Forall_cons; [ .. | apply List.Forall_nil].
  - unfold eps_growth_rule. solve_half_steps.
  - unfold dividend_rule. solve_half_steps.
  - unfold share_count_rule. solve_half_steps.
  - unfold book_value_rule. solve_half_steps.
  - unfold free_cash_flow_rule. solve_half_steps.
  - unfold net_margin_rule. solve_half_steps.
  - unfold roe_rule. solve_half_steps.
  - unfold interest_coverage_rule. solve_half_steps.
  - unfold debt_equity_rule. solve_half_steps.
Qed.

Lemma moat_criteria_half_steps (stock_info : snapshot) :
  Forall half_steps (moat_criteria stock_info).
Proof.
  unfold moat_criteria.
  repeat apply List.Forall_cons; [ .. | apply List.Forall_nil].
  - unfold brand_rule. solve_half_steps.
  - unfold patents_rule. solve_half_steps.
  - unfold cost_advantage_rule. solve_half_steps.
  - unfold switching_cost_rule. solve_half_steps.
  - unfold network_effect_rule. solve_half_steps.
  - unfold niche_rule. solve_half_steps.
  - unfold longevity_rule. solve_half_steps.
Qed.

Lemma risk_rules_half_steps (stock_info : snapshot) :
  Forall half_steps (risk_rules stock_info).
Proof.
  unfold risk_rules.
  repeat apply List.Forall_cons; [ .. | apply List.Forall_nil].
  - unfold tech_risk_rule. solve_half_steps.
  - unfold gov_risk_rule. solve_half_steps.
  - unfold china_risk_rule. solve_half_steps.
Qed.

(** X10: whatever the snapshot, and whether or not a criterion raised,
    the financial score and the moat score are whole numbers of half
    points, the risk deduction is one of 0, -1, -2, -3, and so the total
    of a scored ticker is a whole number of half points. *)
Theorem scores_in_half_points {H : Type} (self : t) (stock_info : snapshot)
    (hist : H) :
  (exists k : Z,
     fst (score_financial_metrics self stock_info hist) == inject_Z k / 2)
  /\ (exists k : Z,
        fst (score_competitive_moat self stock_info) == inject_Z k / 2)
  /\ (exists k : Z,
        (-3 <= k <= 0)%Z
        /\ fst (calculate_risk_deductions self stock_info) == inject_Z k)
  /\ (exists k : Z,
        fst (score_financial_metrics self stock_info hist)
        + fst (score_competitive_moat self stock_info)
        + fst (calculate_risk_deductions self stock_info)
        == inject_Z k / 2).
Proof.
  unfold score_financial_metrics, score_competitive_moat,
    calculate_risk_deductions.
  rewrite !try_except_score.
  destruct (half_steps_block _ (financial_criteria_half_steps stock_info) initial)
    as [kf Hf].
  destruct (half_steps_block _ (moat_criteria_half_steps stock_info) initial)
    as [km Hm].
  assert (Hr : exists k : Z,
             (-3 <= k <= 0)%Z
             /\ score (after (block (risk_rules stock_info)) initial)
                == inject_Z k).
  { unfold risk_rules, tech_risk_rule, gov_risk_rule, china_risk_rule.
    cbn [block]. run_block. step_cases;
      first [ exists 0%Z; split; [lia | unfold inject_Z; lra]
            | exists (-1)%Z; split; [lia | unfold inject_Z; lra]
            | exists (-2)%Z; split; [lia | unfold inject_Z; lra]
            | exists (-3)%Z; split; [lia | unfold inject_Z; lra] ]. }
  destruct Hr as (kr & Hkr & Hr).
  cbn [score initial] in Hf, Hm.
  repeat split.
  - exists kf. rewrite Hf. unfold Qdiv. lra.
  - exists km. rewrite Hm. unfold Qdiv. lra.
  - exists kr. split; [exact Hkr | exact Hr].
  - exists (kf + km + 2 * kr)%Z.
    rewrite Hf, Hm, Hr, !inject_Z_plus, inject_Z_mult. field.
Qed.

(** *** Interest coverage and the profitability tiers *)

Lemma fits_quotient (n d : Z) :
  d <> 0%Z ->
  fits_float (inject_Z n) = true ->
  fits_float (inject_Z n / inject_Z d) = true.
Proof.
  unfold fits_float. rewrite !Qltb_lt. intros Hd Hn.
  eapply Qle_lt_trans; [| exact Hn].
  unfold Qdiv. rewrite Qabs_Qmult, Qabs_Qinv.
  assert (H1 : 1 <= Qabs (inject_Z d)).
  { unfold Qabs, inject_Z, Qle. cbn. lia. }
  assert (Hinv : / Qabs (inject_Z d) <= 1).
  { apply Qle_shift_inv_r; lra. }
  pose proof (Qabs_nonneg (inject_Z n)) as H0.
  nra.
Qed.

Lemma truthy_number (v : pyval) (q : Q) :
  as_number v = Some (Fin q) -> truthy v = negb (Qeq_bool q 0).
Proof.
  destruct v as [| [] | n | [x | |] | s]; cbn; intros Hv;
    try discriminate; injection Hv as <-; try reflexivity.
  unfold Qeq_bool. cbn. rewrite Z.mul_1_r.
  destruct n; reflexivity.
Qed.

Lemma ne_zero_number (v : pyval) (q : Q) :
  as_number v = Some (Fin q) -> ne_zero v = negb (Qeq_bool q 0).
Proof. unfold ne_zero. intros ->. reflexivity. Qed.

Lemma Qeq_bool_false (q : Q) : ~ q == 0 -> Qeq_bool q 0 = false.
Proof.
  intros Hq. apply not_true_iff_false. rewrite Qeq_bool_iff. exact Hq.
Qed.

(** A true division of finite numbers that convert to [float], by a
    divisor that is not zero, yields their quotient. *)
Lemma truediv_finite (a b : pyval) (p q : Q) :
  as_number a = Some (Fin p) -> as_number b = Some (Fin q) -> ~ q == 0 ->
  converts (Some a) = true -> converts (Some b) = true ->
  truediv a b = Ok (PFloat (Fin (p / q))).
Proof.
  intros Ha Hb Hq Ca Cb. unfold truediv. rewrite Ha, Hb.
  assert (Hq' := Qeq_bool_false q Hq).
  destruct a as [| ba | n | [x | |] | sa]; cbn in Ha; try discriminate;
    injection Ha as <-;
    destruct b as [| bb | d | [y | |] | sb]; cbn in Hb; try discriminate;
    injection Hb as <-; cbn [as_int to_float converts] in *.
  all: try (unfold float_of_int; rewrite ?Ca, ?Cb; cbn [fdiv]; rewrite Hq';
            reflexivity).
  all: try (cbn [fdiv]; rewrite Hq'; reflexivity).
  - destruct bb; [| exfalso; apply Hq; reflexivity].
    cbn. destruct ba; reflexivity.
  - assert (Hd : (d =? 0)%Z = false).
    { apply Z.eqb_neq. intros ->. apply Hq. reflexivity. }
    rewrite Hd. rewrite fits_quotient; [destruct ba; reflexivity | | ].
    + apply Z.eqb_neq, Hd.
    + destruct ba; reflexivity.
  - destruct bb; [| exfalso; apply Hq; reflexivity].
    cbn [Z.eqb]. rewrite fits_quotient; [reflexivity | discriminate | exact Ca].
  - assert (Hd : (d =? 0)%Z = false).
    { apply Z.eqb_neq. intros ->. apply Hq. reflexivity. }
    rewrite Hd.
    rewrite fits_quotient; [reflexivity | apply Z.eqb_neq, Hd | exact Ca].
Qed.

(** With the quotient taken exactly, an EBIT [e] and a nonzero interest
    expense [i], both finite numbers that convert to [float], make the
    interest-coverage criterion score the absolute value of [e / i].  The
    code rounds the quotient to a double, which changes the tier only of
    a quotient within half a unit in the last place of a threshold. *)
Lemma interest_coverage_exact_ratio (d : gmap string pyval) (ebit ie : pyval)
    (e i : Q) :
  d !! "ebit" = Some ebit -> d !! "interestExpense" = Some ie ->
  as_number ebit = Some (Fin e) -> as_number ie = Some (Fin i) -> ~ i == 0 ->
  converts (Some ebit) = true -> converts (Some ie) = true ->
  raises (interest_coverage_rule (FDict d)) = false
  /\ contribution (interest_coverage_rule (FDict d)) == coverage_points (e / i).
Proof.
  intros Hde Hdi He Hi Hnz Ce Ci.
  unfold raises, contribution, interest_coverage_rule, fget, coverage_points.
  rewrite Hde, Hdi. run_block.
  rewrite (truthy_number _ _ Hi), (ne_zero_number _ _ Hi),
    (Qeq_bool_false _ Hnz).
  cbn [negb andb]. unfold ic_ratio_of.
  rewrite (truthy_number _ _ He).
  destruct (Qeq_bool e 0) eqn:Hez; cbn [negb].
  - apply Qeq_bool_iff in Hez.
    assert (Hr : Qabs (e / i) == 0).
    { rewrite Hez. unfold Qdiv. rewrite Qmult_0_l. reflexivity. }
    destruct (Qlt_le_dec 10 (Qabs (e / i))); [exfalso; lra |].
    destruct (Qlt_le_dec 5 (Qabs (e / i))); [exfalso; lra |].
    split; reflexivity.
  - rewrite (truediv_finite _ _ _ _ He Hi Hnz Ce Ci).
    cbn [py_abs gt_lit as_number]. rewrite !Qltb_dec.
    destruct (Qlt_le_dec 10 (Qabs (e / i))).
    + cbn. split; reflexivity.
    + destruct (Qlt_le_dec 5 (Qabs (e / i))); cbn; split; reflexivity.
Qed.

(** X12: for a finite [float] margin or return on equity [q], the two
    profitability criteria never raise.  The thresholds are the doubles
    that the literals 0.05, 0.10, 0.15 and 0.40 denote.  Net margin scores
    1 above 0.10, 0.5 above 0.05 up to 0.10, nothing otherwise.  Return on
    equity scores 1 from 0.15 to 0.40 inclusive, 0.5 from 0.10 up to 0.15,
    and nothing below 0.10 or above 0.40. *)
Theorem profitability_tiers (d : gmap string pyval) (q : Q) :
  (d !! "profitMargins" = Some (PFloat (Fin q)) ->
   raises (net_margin_rule (FDict d)) = false
   /\ contribution (net_margin_rule (FDict d)) == net_margin_points q)
  /\ (d !! "returnOnEquity" = Some (PFloat (Fin q)) ->
      raises (roe_rule (FDict d)) = false
      /\ contribution (roe_rule (FDict d)) == roe_points q).
Proof.
  assert (H05 : float_0_05 == 3602879701896397 # 72057594037927936)
    by reflexivity.
  assert (H10' : float_0_10 == 3602879701896397 # 36028797018963968)
    by reflexivity.
  assert (H15' : float_0_15 == 5404319552844595 # 36028797018963968)
    by reflexivity.
  assert (H40' : float_0_40 == 3602879701896397 # 9007199254740992)
    by reflexivity.
  split; intros Hq.
  - unfold raises, contribution, net_margin_rule, fget, net_margin_points.
    rewrite Hq. run_block. cbn [truthy gt_lit as_number].
    rewrite !Qltb_dec.
    destruct (Qeq_bool q 0) eqn:Hz; cbn [negb].
    + apply Qeq_bool_iff in Hz.
      destruct (Qlt_le_dec float_0_10 q); [exfalso; lra |].
      destruct (Qlt_le_dec float_0_05 q); [exfalso; lra |].
      split; reflexivity.
    + destruct (Qlt_le_dec float_0_10 q); [cbn; split; reflexivity |].
      destruct (Qlt_le_dec float_0_05 q); cbn; split; reflexivity.
  - unfold raises, contribution, roe_rule, fget, roe_points,
      between_le_le, between_le_lt.
    rewrite Hq. run_block. cbn [truthy ge_lit le_lit lt_lit as_number].
    rewrite !Qltb_dec.
    destruct (Qeq_bool q 0) eqn:Hz; cbn [negb].
    + apply Qeq_bool_iff in Hz.
      destruct (Qlt_le_dec q float_0_10); [| exfalso; lra].
      split; reflexivity.
    + destruct (Qlt_le_dec q float_0_10) as [Hlt | Hge].
      * assert (H15 : Qle_bool float_0_15 q = false).
        { apply not_true_iff_false. rewrite Qle_bool_iff. lra. }
        assert (H10 : Qle_bool float_0_10 q = false).
        { apply not_true_iff_false. rewrite Qle_bool_iff. lra. }
        rewrite H15, H10. cbn. split; reflexivity.
      * assert (H10 : Qle_bool float_0_10 q = true) by (apply Qle_bool_iff; lra).
        destruct (Qlt_le_dec q float_0_15) as [Hlt15 | Hge15].
        -- assert (H15 : Qle_bool float_0_15 q = false).
           { apply not_true_iff_false. rewrite Qle_bool_iff. lra. }
           rewrite H15, H10. cbn. split; reflexivity.
        -- assert (H15 : Qle_bool float_0_15 q = true) by (apply Qle_bool_iff; lra).
           rewrite H15.
           destruct (Qlt_le_dec float_0_40 q) as [Hgt40 | Hle40].
           ++ assert (H40 : Qle_bool q float_0_40 = false).
              { apply not_true_iff_false. rewrite Qle_bool_iff. lra. }
              rewrite H40, H10.
              destruct (Qlt_le_dec q float_0_15); [exfalso; lra |].
              cbn. split; reflexivity.
           ++ assert (H40 : Qle_bool q float_0_40 = true)
                by (apply Qle_bool_iff; lra).
              rewrite H40. cbn. split; reflexivity.
Qed.

(** *** What each scorer reads *)

Ltac in_keys := repeat first [apply list_elem_of_here | apply list_elem_of_further].

(** X13: each scorer depends only on the fields it reads.  The financial
    score is settled by ['financialData'] and six top-level keys, the
    moat score by five top-level keys and the risk deduction by the
    industry and the country.  In particular the moat's cost-advantage
    rule reads the top-level ['profitMargins'], not the one under
    ['financialData'] that the net-margin criterion reads. *)
Theorem scorers_read_only_their_fields {H : Type} (self : t)
    (s1 s2 : snapshot) (hist : H) :
  (agree_on financial_fields s1 s2 ->
   get_financials s1 = get_financials s2 ->
   score_financial_metrics self s1 hist = score_financial_metrics self s2 hist)
  /\ (agree_on moat_fields s1 s2 ->
      score_competitive_moat self s1 = score_competitive_moat self s2)
  /\ (agree_on risk_fields s1 s2 ->
      calculate_risk_deductions self s1 = calculate_risk_deductions self s2).
Proof.
  split; [| split].
  - intros Ha Hf.
    unfold score_financial_metrics, financial_criteria,
      dividend_rule, share_count_rule, book_value_rule, get.
    rewrite Hf.
    rewrite (Ha "dividendRate"), (Ha "fiveYearAvgDividendYield"),
      (Ha "sharesOutstanding"), (Ha "sharesShort"),
      (Ha "longBusinessSummary"), (Ha "bookValue")
      by (unfold financial_fields; in_keys).
    reflexivity.
  - intros Ha.
    unfold score_competitive_moat, moat_criteria, brand_rule, patents_rule,
      cost_advantage_rule, switching_cost_rule, network_effect_rule,
      niche_rule, longevity_rule, get.
    rewrite (Ha "sector"), (Ha "industry"), (Ha "marketCap"),
      (Ha "profitMargins"), (Ha "fiveYearAvgDividendYield")
      by (unfold moat_fields; in_keys).
    reflexivity.
  - intros Ha.
    unfold calculate_risk_deductions, risk_rules, tech_risk_rule,
      gov_risk_rule, china_risk_rule, get.
    rewrite (Ha "industry"), (Ha "country") by (unfold risk_fields; in_keys).
    reflexivity.
Qed.

(** *** The ticker universe *)

Lemma sorted_list_spec (stocks : gset string) :
  StronglySorted String.le (sorted_list stocks)
  /\ NoDup (sorted_list stocks)
  /\ forall symbol, symbol ∈ sorted_list stocks <-> symbol ∈ stocks.
Proof.
  unfold sorted_list. split; [| split].
  - apply StronglySorted_merge_sort; apply _.
  - rewrite merge_sort_Permutation. apply NoDup_elements.
  - intros symbol. rewrite merge_sort_Permutation. apply elem_of_elements.
Qed.

(** The set built from a list, sorted: ascending, free of duplicates,
    with the members of the list. *)
Lemma sorted_list_of_list (xs : list string) :
  StronglySorted String.le (sorted_list (∅ ∪ list_to_set xs))
  /\ NoDup (sorted_list (∅ ∪ list_to_set xs))
  /\ (forall symbol, symbol ∈ sorted_list (∅ ∪ list_to_set xs) <-> symbol ∈ xs).
Proof.
  destruct (sorted_list_spec (∅ ∪ list_to_set xs)) as (Hsorted & Hnodup & Hmem).
  split; [exact Hsorted | split; [exact Hnodup |]].
  intros symbol. rewrite Hmem, elem_of_union, elem_of_list_to_set.
  split; [intros [He | Hx]; [| exact Hx] | intros Hx; right; exact Hx].
  exfalso. revert He. apply not_elem_of_empty.
Qed.

(** X14: [get_all_us_stocks] returns the tickers of its literal list in
    ascending order, each exactly once although eleven entries of the
    list repeat an earlier one, and nothing else: 134 tickers. *)
Theorem ticker_universe :
  StronglySorted String.le get_all_us_stocks
  /\ NoDup get_all_us_stocks
  /\ (forall symbol, symbol ∈ get_all_us_stocks <-> symbol ∈ major_tickers)
  /\ length get_all_us_stocks = 134%nat
  /\ length major_tickers = 145%nat.
Proof.
  destruct (sorted_list_of_list major_tickers) as (Hsorted & Hnodup & Hmem).
  split; [exact Hsorted | split; [exact Hnodup | split; [exact Hmem | split]]].
  - vm_compute. reflexivity.
  - reflexivity.
Qed.

(** *** The scoring loop *)

Lemma score_each_map {H : Type} (scorer : t) (yf : provider H)
    (stock_list : list string) :
  score_each scorer yf stock_list = map (score_stock scorer yf) stock_list.
Proof.
  unfold score_each.
  assert (Hgen : forall acc,
    fold_left
      (fun results symbol => (results ++ [score_stock scorer yf symbol])%list)
      stock_list acc
    = (acc ++ map (score_stock scorer yf) stock_list)%list).
  { induction stock_list as [| symbol rest IH]; intros acc; cbn.
    - rewrite app_nil_r. reflexivity.
    - rewrite IH, <- app_assoc. reflexivity. }
  apply (Hgen []).
Qed.

Lemma score_stock_ticker {H : Type} (scorer : t) (yf : provider H)
    (symbol : string) :
  result_ticker (score_stock scorer yf symbol) = symbol
  /\ has_error (score_stock scorer yf symbol) = provider_fails yf symbol.
Proof.
  unfold score_stock, provider_fails.
  destruct (yf symbol) as [[info hist] | e]; [| split; reflexivity].
  destruct (score_financial_metrics scorer info hist),
           (score_competitive_moat scorer info),
           (calculate_risk_deductions scorer info).
  split; reflexivity.
Qed.

Section ScoringLoop.

Context {H : Type} (scorer : t) (yf : provider H).

Lemma scored_tickers (stock_list : list string) :
  map result_ticker (map (score_stock scorer yf) stock_list) = stock_list.
Proof.
  induction stock_list as [| symbol rest IH]; cbn; [reflexivity |].
  rewrite IH. f_equal. apply score_stock_ticker.
Qed.

Lemma scored_errors (stock_list : list string) :
  map has_error (map (score_stock scorer yf) stock_list)
  = map (provider_fails yf) stock_list.
Proof.
  induction stock_list as [| symbol rest IH]; cbn; [reflexivity |].
  rewrite IH. f_equal. apply score_stock_ticker.
Qed.

Lemma scored_error_count (stock_list : list string) :
  length (filter (fun r => has_error r = true)
            (map (score_stock scorer yf) stock_list))
  = length (filter (fun symbol => provider_fails yf symbol = true) stock_list).
Proof.
  induction stock_list as [| symbol rest IH]; [reflexivity |].
  cbn [map]. rewrite !filter_cons.
  destruct (score_stock_ticker scorer yf symbol) as [_ He]. rewrite He.
  destruct (decide (provider_fails yf symbol = true)); cbn [length];
    rewrite IH; reflexivity.
Qed.

End ScoringLoop.

(** X15: the loop of [main] yields one result per ticker, in the order of
    the list, and a result is the error variant exactly when the provider
    failed on its ticker: a failure costs that ticker only, and the
    results of the others are those of [score_stock] on their own. *)
Theorem score_each_one_result_per_ticker {H : Type} (scorer : t)
    (yf : provider H) (stock_list : list string) :
  map result_ticker (score_each scorer yf stock_list) = stock_list
  /\ map has_error (score_each scorer yf stock_list)
     = map (provider_fails yf) stock_list
  /\ length (filter (fun r => has_error r = true)
               (score_each scorer yf stock_list))
     = length (filter (fun symbol => provider_fails yf symbol = true)
                 stock_list)
  /\ forall (i : nat) (symbol : string),
       stock_list !! i = Some symbol ->
       score_each scorer yf stock_list !! i
       = Some (score_stock scorer yf symbol).
Proof.
  rewrite score_each_map.
  split; [apply scored_tickers | split; [apply scored_errors | split]].
  - apply scored_error_count.
  - intros i symbol Hi. rewrite list_lookup_fmap, Hi. reflexivity.
Qed.

(** X16: whatever the provider does, [main] scores 134 distinct tickers,
    each once, in ascending order of the symbol, with as many error
    variants as tickers on which the provider failed. *)
Theorem main_scores_each_ticker_once {H : Type} (yf : provider H) :
  map result_ticker (main_results yf) = get_all_us_stocks
  /\ NoDup (map result_ticker (main_results yf))
  /\ length (main_results yf) = 134%nat
  /\ length (filter (fun r => has_error r = true) (main_results yf))
     = length (filter (fun symbol => provider_fails yf symbol = true)
                 get_all_us_stocks).
Proof.
  unfold main_results. cbn zeta. rewrite score_each_map.
  destruct (sorted_list_of_list major_tickers) as (_ & Hnodup & _).
  split; [apply scored_tickers | split; [| split]].
  - rewrite scored_tickers. exact Hnodup.
  - rewrite length_map. vm_compute. reflexivity.
  - apply scored_error_count.
Qed.

(** *** Fields that stop the financial scorer at once *)

(** X17: an ['earningsGrowth'] that is present but not a number ([None],
    a string) stops [score_financial_metrics] in its first criterion: the
    score is 0 and the breakdown holds the ['Error'] entry alone, whatever
    the other fields are.  For [None] and the empty string it is the
    f-string of the else branch that raises, on [eps_growth*100]. *)
Theorem earnings_growth_not_a_number {H : Type} (self : t)
    (info : gmap string pyval) (d : gmap string pyval) (v : pyval) (hist : H) :
  d !! "earningsGrowth" = Some v -> as_number v = None ->
  exists e,
    score_financial_metrics self (mkSnapshot info (Some (FDict d))) hist
    = (0, {["Error" := Message e]}).
Proof.
  intros Hd Hv.
  unfold score_financial_metrics, try_except, financial_criteria,
    get_financials, eps_growth_rule, fget.
  cbn [financialData block]. rewrite Hd. run_block.
  destruct v as [| b | n | f | s]; try discriminate Hv.
  - exists TypeError. reflexivity.
  - destruct s as [| c s'].
    + exists ValueError. reflexivity.
    + exists TypeError. reflexivity.
Qed.

(** [{'dividendRate': 2.0, 'financialData': {'earningsGrowth': None}}] *)
Lemma earnings_growth_not_a_number_witness :
  exists e,
    score_financial_metrics init
      (mkSnapshot (<["dividendRate" := PFloat (Fin 2.0)]> ∅)
         (Some (FDict (<["earningsGrowth" := PNone]> ∅)))) tt
    = (0, {["Error" := Message e]}).
Proof.
  apply (@earnings_growth_not_a_number unit init _
           (<["earningsGrowth" := PNone]> ∅) PNone tt).
  - reflexivity.
  - reflexivity.
Defined.

(** X18: a ticker whose ['financialData'] is not a dict never passes
    under the threshold of 7: its financial score is 0 and the moat
    score alone stays at 5.5 or below. *)
Theorem financial_data_not_a_dict_fails {H : Type} (yf : provider H)
    (symbol : string) (info : gmap string pyval) (v : pyval) (hist : H) :
  yf symbol = Ok (mkSnapshot info (Some (FScalar v)), hist) ->
  exists r, score_stock init yf symbol = Success r
            /\ financial_score r = 0
            /\ total_score r <= 5.5
            /\ passing r = false.
Proof.
  intros Hyf. unfold score_stock. rewrite Hyf.
  set (stock_info := mkSnapshot info (Some (FScalar v))).
  assert (Hfin : score_financial_metrics init stock_info hist
                 = (0, {["Error" := Message AttributeError]})) by reflexivity.
  rewrite Hfin.
  pose proof (moat_block_delta_tight stock_info initial) as Hm.
  pose proof (risk_block_delta stock_info initial) as Hr.
  pose proof (try_except_score (block (moat_criteria stock_info))) as Em.
  pose proof (try_except_score (block (risk_rules stock_info))) as Er.
  unfold score_competitive_moat, calculate_risk_deductions.
  destruct (try_except (block (moat_criteria stock_info))) as [ms md].
  destruct (try_except (block (risk_rules stock_info))) as [rs rd].
  cbn [fst score initial] in *. subst ms rs.
  eexists. split; [reflexivity |].
  cbn [financial_score total_score passing min_passing_score init].
  split; [reflexivity | split; [lra |]].
  apply not_true_iff_false. rewrite Qle_bool_iff. lra.
Qed.

Lemma financial_data_not_a_dict_fails_witness :
  exists r,
    score_stock init
      (fun _ => Ok (mkSnapshot (<["sector" := PStr "Technology"]> ∅)
                      (Some (FScalar PNone)), tt)) "AAPL"
    = Success r
    /\ financial_score r = 0
    /\ total_score r <= 5.5
    /\ passing r = false.
Proof.
  apply (@financial_data_not_a_dict_fails unit _ "AAPL"
           (<["sector" := PStr "Technology"]> ∅) PNone tt).
  reflexivity.
Defined.

(** ** A criterion within the run of its scorer *)

Lemma block_app (l1 l2 : list (M unit)) (st : state) :
  block (l1 ++ l2) st
  = match block l1 st with
    | (Ok _, st') => block l2 st'
    | (Raise e, st') => (Raise e, st')
    end.
Proof.
  revert st. induction l1 as [| s rest IH]; intros st; cbn [app block].
  - reflexivity.
  - unfold bind. destruct (s st) as [[[] | e] st']; [apply IH | reflexivity].
Qed.

(** When no statement of [pre] raises, [pre] runs to its end, and the
    result of [pre] followed by [post] is that of [post] run on the locals
    [pre] leaves. *)
Lemma run_prefix (pre post : list (M unit)) :
  Forall uniform pre ->
  existsb raises pre = false ->
  exists st,
    try_except (block pre) = (score st, details st)
    /\ try_except (block (pre ++ post))
       = match block post st with
         | (Ok _, st') => (score st', details st')
         | (Raise e, st') => (score st', <["Error" := Message e]> (details st'))
         end.
Proof.
  intros Hu Hr. pose proof (block_raises _ Hu initial) as Hb.
  unfold try_except. rewrite block_app.
  destruct (block pre initial) as [[[] | e] st]; cbn [fst] in Hb.
  - exists st. split; reflexivity.
  - congruence.
Qed.

Lemma leaves_block (key : string) (stmts : list (M unit)) :
  Forall (leaves key) stmts -> leaves key (block stmts).
Proof.
  induction 1 as [| s rest Hs _ IH]; intros st; cbn [block].
  - reflexivity.
  - specialize (Hs st). unfold after, bind in *.
    destruct (s st) as [[[] | e] st']; cbn [snd] in *.
    + rewrite <- Hs. apply IH.
    + exact Hs.
Qed.

Ltac solve_leaves :=
  intros st; run_block; step_cases;
  rewrite ?lookup_insert_ne by discriminate; reflexivity.

Section FinancialLeaves.

Variable financials : financial_data.
Variable stock_info : snapshot.



End FinancialLeaves.






(** *** Interest coverage on whole amounts *)

(** The quotient of two integers, the divisor below [2^50] in absolute
    value, is never within half a unit in the last place above 10 or
    above 5: rounding it to the nearest double cannot move it across a
    threshold of the criterion. *)
Lemma Qlt_div_mult (a b c : Q) : 0 < b -> c < a / b -> c * b < a.
Proof.
  intros Hb Hc. apply (Qmult_lt_r c (a / b) b Hb) in Hc.
  assert (Hab : a / b * b == a) by (field; lra).
  rewrite Hab in Hc. exact Hc.
Qed.

Lemma whole_ratio_clear_of_thresholds (e i : Z) :
  i <> 0%Z -> (Z.abs i < 2 ^ 50)%Z ->
  (10 < Qabs (inject_Z e / inject_Z i) ->
   10 + (1 # 1125899906842624) < Qabs (inject_Z e / inject_Z i))
  /\ (5 < Qabs (inject_Z e / inject_Z i) ->
      5 + (1 # 2251799813685248) < Qabs (inject_Z e / inject_Z i)).
Proof.
  intros Hi Hsmall.
  assert (Habs : Qabs (inject_Z e / inject_Z i)
                 == inject_Z (Z.abs e) / inject_Z (Z.abs i)).
  { unfold Qdiv. rewrite Qabs_Qmult, Qabs_Qinv. reflexivity. }
  rewrite Habs.
  assert (Hb0 : 0 < inject_Z (Z.abs i)).
  { change 0 with (inject_Z 0). rewrite <- Zlt_Qlt. lia. }
  assert (Hb : inject_Z (Z.abs i) < 1125899906842624).
  { change 1125899906842624 with (inject_Z (2 ^ 50)). rewrite <- Zlt_Qlt. exact Hsmall. }
  split; intros Hlt.
  - apply Qlt_shift_div_l; [exact Hb0 |].
    assert (Hz : (10 * Z.abs i < Z.abs e)%Z).
    { apply Qlt_div_mult in Hlt; [| exact Hb0].
      change 10 with (inject_Z 10) in Hlt.
      rewrite <- inject_Z_mult, <- Zlt_Qlt in Hlt. exact Hlt. }
    assert (Hq : 10 * inject_Z (Z.abs i) + 1 <= inject_Z (Z.abs e)).
    { change 10 with (inject_Z 10). change 1 with (inject_Z 1).
      rewrite <- inject_Z_mult, <- inject_Z_plus, <- Zle_Qle. lia. }
    lra.
  - apply Qlt_shift_div_l; [exact Hb0 |].
    assert (Hz : (5 * Z.abs i < Z.abs e)%Z).
    { apply Qlt_div_mult in Hlt; [| exact Hb0].
      change 5 with (inject_Z 5) in Hlt.
      rewrite <- inject_Z_mult, <- Zlt_Qlt in Hlt. exact Hlt. }
    assert (Hq : 5 * inject_Z (Z.abs i) + 1 <= inject_Z (Z.abs e)).
    { change 5 with (inject_Z 5). change 1 with (inject_Z 1).
      rewrite <- inject_Z_mult, <- inject_Z_plus, <- Zle_Qle. lia. }
    lra.
Qed.

(** X11: with an EBIT [e] and a nonzero interest expense [i] that are
    both [int], the interest expense below [2^50] in absolute value and
    the EBIT small enough to convert to [float], the interest-coverage
    criterion never raises and scores the absolute value of [e / i]: 1
    above 10, 0.5 above 5 up to 10, nothing up to 5.  The sign is dropped,
    so an operating loss of more than ten times the interest expense earns
    the full point.  On such operands the quotient is clear of both
    thresholds by more than half a unit in the last place, so the
    rounding of the division does not change the tier. *)
Theorem interest_coverage_tiers (d : gmap string pyval) (e i : Z) :
  d !! "ebit" = Some (PInt e) -> d !! "interestExpense" = Some (PInt i) ->
  i <> 0%Z -> (Z.abs i < 2 ^ 50)%Z ->
  fits_float (inject_Z e) = true ->
  raises (interest_coverage_rule (FDict d)) = false
  /\ contribution (interest_coverage_rule (FDict d))
     == coverage_points (inject_Z e / inject_Z i)
  /\ (10 < Qabs (inject_Z e / inject_Z i) ->
      10 + (1 # 1125899906842624) < Qabs (inject_Z e / inject_Z i))
  /\ (5 < Qabs (inject_Z e / inject_Z i) ->
      5 + (1 # 2251799813685248) < Qabs (inject_Z e / inject_Z i)).
Proof.
  intros Hde Hdi Hi Hsmall Hfits.
  assert (Hnz : ~ inject_Z i == 0).
  { intros Hz. apply Hi. unfold Qeq in Hz. cbn in Hz. lia. }
  assert (Hci : converts (Some (PInt i)) = true).
  { cbn [converts]. unfold fits_float. apply Qltb_lt.
    assert (Hq : Qabs (inject_Z i) == inject_Z (Z.abs i)) by reflexivity.
    rewrite Hq, <- Zlt_Qlt. unfold float_overflow.
    eapply Z.lt_trans; [exact Hsmall |]. reflexivity. }
  destruct (interest_coverage_exact_ratio d (PInt e) (PInt i)
              (inject_Z e) (inject_Z i) Hde Hdi eq_refl eq_refl Hnz Hfits Hci)
    as [Hr Hc].
  destruct (whole_ratio_clear_of_thresholds e i Hi Hsmall) as [H10 H5].
  split; [exact Hr | split; [exact Hc | split; [exact H10 | exact H5]]].
Qed.

(** [{'ebit': -1200000, 'interestExpense': 100000}]: a loss of twelve
    times the interest expense. *)
Lemma interest_coverage_tiers_witness :
  contribution
    (interest_coverage_rule
       (FDict (<["ebit" := PInt (-1200000)]>
                 (<["interestExpense" := PInt 100000]> ∅))))
  == coverage_points (inject_Z (-1200000) / inject_Z 100000).
Proof.
  apply (interest_coverage_tiers
           (<["ebit" := PInt (-1200000)]>
              (<["interestExpense" := PInt 100000]> ∅))
           (-1200000) 100000).
  - reflexivity.
  - reflexivity.
  - lia.
  - reflexivity.
  - reflexivity.
Defined.

(** *** The dividend history in both scores *)

Lemma try_except_lookup (body : M unit) (key : string) :
  key <> "Error" ->
  snd (try_except body) !! key = details (after body initial) !! key.
Proof.
  intros Hk. unfold try_except, after.
  destruct (body initial) as [[a | e] st]; cbn [snd]; [reflexivity |].
  apply lookup_insert_ne. congruence.
Qed.

Lemma after_block_cons (s : M unit) (rest : list (M unit)) (st : state) :
  after (block (s :: rest)) st
  = match fst (s st) with
    | Ok _ => after (block rest) (after s st)
    | Raise _ => after s st
    end.
Proof.
  unfold after. cbn [block]. unfold bind.
  destruct (s st) as [[[] | e] st']; reflexivity.
Qed.

Section DividendEntry.

Variable stock_info : snapshot.

Lemma others_leave_dividend (financials : financial_data) :
  leaves "Dividend" (eps_growth_rule financials)
  /\ Forall (leaves "Dividend")
       [ share_count_rule stock_info; book_value_rule stock_info;
         free_cash_flow_rule financials; net_margin_rule financials;
         roe_rule financials; interest_coverage_rule financials;
         debt_equity_rule financials ].
Proof.
  split; [unfold eps_growth_rule; solve_leaves |].
  repeat apply List.Forall_cons; [ .. | apply List.Forall_nil].
  - unfold share_count_rule. solve_leaves.
  - unfold book_value_rule. solve_leaves.
  - unfold free_cash_flow_rule. solve_leaves.
  - unfold net_margin_rule. solve_leaves.
  - unfold roe_rule. solve_leaves.
  - unfold interest_coverage_rule. solve_leaves.
  - unfold debt_equity_rule. solve_leaves.
Qed.

(** Only the branch behind [five_year_avg_yield > 0] writes the
    full-point entry. *)
Lemma dividend_full_entry (st : state) (args : list pyval) :
  details st !! "Dividend" = None ->
  details (after (dividend_rule stock_info) st) !! "Dividend"
  = Some (Rendered
            "✓ ${dividend_rate:.2f}, 5yr avg {five_year_avg_yield:.1f}%" args) ->
  gt_lit (get stock_info "fiveYearAvgDividendYield" (PInt 0)) 0 = Ok true.
Proof.
  unfold dividend_rule, and_then. run_block.
  destruct (truthy (get stock_info "dividendRate" (PInt 0)));
    [ destruct (gt_lit (get stock_info "dividendRate" (PInt 0)) 0)
        as [[] | e1];
      [ destruct (truthy (get stock_info "fiveYearAvgDividendYield" (PInt 0)));
        [ destruct (gt_lit (get stock_info "fiveYearAvgDividendYield" (PInt 0)) 0)
            as [[] | e2] | ] | | ] | ];
    cbn [fst snd score details]; step_cases; intros Hnone Hsome;
    first [ reflexivity
          | congruence
          | rewrite lookup_insert_eq in Hsome; discriminate ].
Qed.

End DividendEntry.

(** X9: the dividend history is counted in both scores.  Whenever the
    breakdown of [score_financial_metrics] holds the full-point dividend
    entry and [score_competitive_moat] records no ['Error'], the moat
    breakdown holds the full-point longevity entry: both test
    [fiveYearAvgDividendYield > 0]. *)
Theorem dividend_point_implies_longevity_point {H : Type} (self : t)
    (stock_info : snapshot) (hist : H) (args : list pyval) :
  snd (score_financial_metrics self stock_info hist) !! "Dividend"
  = Some (Rendered
            "✓ ${dividend_rate:.2f}, 5yr avg {five_year_avg_yield:.1f}%" args) ->
  snd (score_competitive_moat self stock_info) !! "Error" = None ->
  snd (score_competitive_moat self stock_info) !! "Longevity"
  = Some (Rendered "✓ Established (dividend history)" []).
Proof.
  intros Hdiv Hnoerr.
  assert (Hgt : gt_lit (get stock_info "fiveYearAvgDividendYield" (PInt 0)) 0
                = Ok true).
  { unfold score_financial_metrics in Hdiv.
    rewrite try_except_lookup in Hdiv by discriminate.
    unfold financial_criteria in Hdiv.
    destruct (others_leave_dividend stock_info (get_financials stock_info))
      as [Heps Hrest].
    rewrite after_block_cons in Hdiv.
    pose proof (Heps initial) as He. cbn [details initial] in He.
    rewrite lookup_empty in He.
    destruct (fst (eps_growth_rule (get_financials stock_info) initial));
      [| congruence].
    rewrite after_block_cons in Hdiv.
    apply (dividend_full_entry stock_info _ args He).
    destruct (fst (dividend_rule stock_info _)); [| exact Hdiv].
    rewrite (leaves_block "Dividend" _ Hrest) in Hdiv. exact Hdiv. }
  unfold score_competitive_moat in *.
  apply (no_error_no_raise _ (moat_criteria_uniform stock_info)) in Hnoerr.
  assert (Hsplit : moat_criteria stock_info
                   = (take 6 (moat_criteria stock_info)
                      ++ [longevity_rule stock_info])%list) by reflexivity.
  assert (Hu : Forall uniform (take 6 (moat_criteria stock_info))).
  { apply Forall_take, moat_criteria_uniform. }
  assert (Hpre : existsb raises (take 6 (moat_criteria stock_info)) = false).
  { rewrite Hsplit, existsb_app in Hnoerr.
    apply orb_false_iff in Hnoerr as [Hpre _]. exact Hpre. }
  destruct (run_prefix _ [longevity_rule stock_info] Hu Hpre)
    as (st6 & _ & Hrun).
  rewrite <- Hsplit in Hrun. rewrite Hrun.
  cbn [block]. unfold longevity_rule. run_block. rewrite Hgt.
  cbn [fst snd score details]. apply lookup_insert_eq.
Qed.

Lemma dividend_point_implies_longevity_point_witness :
  snd (score_competitive_moat init top_tier) !! "Longevity"
  = Some (Rendered "✓ Established (dividend history)" []).
Proof.
  apply (@dividend_point_implies_longevity_point unit init top_tier tt
           [PFloat (Fin 2.0); PFloat (Fin 2.5)]).
  - reflexivity.
  - reflexivity.
Defined.
